(** * ai-hands-on: the deep-research pipeline and the trading account

    A shallow embedding of

      - [engineering_team/output/accounts.py]   (module [Accounts]),
      - [deep-research/research_manager.py] and
        [deep-research/deep_research.py]        (module [Research]),

    together with the properties of these programs that the design
    document of the repository states.

    Modelling conventions.

      - A Python [str] is a [string]; its characters are the code points
        below 256, so [isspace] lists the white space of that range.
      - A Python [float] holding an amount of money is an exact rational
        of [Q]: rounding, infinities and NaN are outside the model, so
        what is stated of amounts is what rounding cannot change
        (which branch a comparison takes, an amount left as it was, an
        order between amounts), never an equality between two computed
        sums.  A Python [int] is a [Z]; the [OverflowError] of an [int]
        too large for a [float] is modelled by [fits_float] and the
        [_call] forms of the methods that convert a quantity.
      - A Python [dict] used as a map is a [gmap].
      - A remote agent is an oracle: a function from the prompt sent to
        it to either the exception it raises or the output it returns.
      - [print] diagnostics are not part of the model. *)

From Stdlib Require Import QArith DecimalString.
From stdpp Require Import gmap strings list fin_maps.

Local Open Scope Z_scope.

(* ===================================================================== *)
(** ** The trading account *)
(* ===================================================================== *)

Module Accounts.

(** The dictionaries appended to [self.transactions], one constructor per
    value of their ['type'] key. *)
Inductive Transaction : Type :=
| TxDeposit (amount : Q)
| TxWithdraw (amount : Q)
| TxBuy (symbol : string) (quantity : Z) (price : Q)
| TxSell (symbol : string) (quantity : Z) (price : Q).

Record Account : Type := mkAccount {
  account_id : string;
  balance : Q;
  initial_deposit : Q;
  holdings : gmap string Z;
  transactions : list Transaction
}.

(** [x > y] on amounts. *)
Definition Qgtb (x y : Q) : bool := negb (Qle_bool x y).

(** [prices.get(symbol, 0.0)] *)
Definition get_share_price (symbol : string) : Q :=
  if String.eqb symbol "AAPL" then 150 # 1
  else if String.eqb symbol "TSLA" then 700 # 1
  else if String.eqb symbol "GOOGL" then 2500 # 1
  else 0 # 1.

(** [Account.__init__] *)
Definition new_account (id : string) (deposit0 : Q) : Account :=
  {| account_id := id;
     balance := deposit0;
     initial_deposit := deposit0;
     holdings := ∅;
     transactions := [TxDeposit deposit0] |}.

Definition deposit (self : Account) (amount : Q) : Account :=
  {| account_id := account_id self;
     balance := (balance self + amount)%Q;
     initial_deposit := initial_deposit self;
     holdings := holdings self;
     transactions := transactions self ++ [TxDeposit amount] |}.

Definition withdraw (self : Account) (amount : Q) : bool * Account :=
  if Qgtb amount (balance self) then (false, self)
  else
    (true,
     {| account_id := account_id self;
        balance := (balance self - amount)%Q;
        initial_deposit := initial_deposit self;
        holdings := holdings self;
        transactions := transactions self ++ [TxWithdraw amount] |}).

Definition buy_shares (self : Account) (symbol : string) (quantity : Z)
  : bool * Account :=
  let price := get_share_price symbol in
  let total_cost := (price * inject_Z quantity)%Q in
  if Qgtb total_cost (balance self) then (false, self)
  else
    (true,
     {| account_id := account_id self;
        balance := (balance self - total_cost)%Q;
        initial_deposit := initial_deposit self;
        holdings :=
          match holdings self !! symbol with
          | Some held => <[symbol := held + quantity]> (holdings self)
          | None => <[symbol := quantity]> (holdings self)
          end;
        transactions :=
          transactions self ++ [TxBuy symbol quantity price] |}).

Definition sell_shares (self : Account) (symbol : string) (quantity : Z)
  : bool * Account :=
  match holdings self !! symbol with
  | None => (false, self)
  | Some held =>
      if held <? quantity then (false, self)
      else
        let price := get_share_price symbol in
        let remaining := held - quantity in
        (true,
         {| account_id := account_id self;
            balance := (balance self + price * inject_Z quantity)%Q;
            initial_deposit := initial_deposit self;
            holdings :=
              if remaining =? 0 then delete symbol (holdings self)
              else <[symbol := remaining]> (holdings self);
            transactions :=
              transactions self ++ [TxSell symbol quantity price] |})
  end.

(** One turn of the loop of [calculate_portfolio_value]. *)
Definition add_position (symbol : string) (quantity : Z) (total_value : Q) : Q :=
  (total_value + inject_Z quantity * get_share_price symbol)%Q.

Definition calculate_portfolio_value (self : Account) : Q :=
  map_fold add_position (balance self) (holdings self).

Definition calculate_profit_loss (self : Account) : Q :=
  (calculate_portfolio_value self - initial_deposit self)%Q.

Definition get_holdings (self : Account) : gmap string Z := holdings self.
Definition get_profit_loss (self : Account) : Q := calculate_profit_loss self.
Definition list_transactions (self : Account) : list Transaction :=
  transactions self.

(** *** Quantities too large for a [float]

    [price * quantity] multiplies a [float] by an [int]: Python first
    converts the [int] to a [float], and raises [OverflowError] ("int
    too large to convert to float") when it rounds beyond the largest
    [float], that is from [2**1024 - 2**970] on. *)
Definition fits_float (n : Z) : bool := Z.abs n <? 2 ^ 1024 - 2 ^ 970.

(** A call of [buy_shares]: the value returned, or [None] for the
    [OverflowError] of [total_cost = price * quantity], and the account
    the call leaves. The product is the second statement of the
    method, so the error leaves the account as it was. *)
Definition buy_shares_call (self : Account) (symbol : string) (quantity : Z)
  : option bool * Account :=
  if fits_float quantity then
    (Some (fst (buy_shares self symbol quantity)),
     snd (buy_shares self symbol quantity))
  else (None, self).

(** A call of [sell_shares]. The test of the holding compares two
    [int]s; [price * quantity] comes after the holding is updated and
    before the balance and the transactions are, so the error leaves
    the new holdings with the old balance and transactions. *)
Definition sell_shares_call (self : Account) (symbol : string) (quantity : Z)
  : option bool * Account :=
  match holdings self !! symbol with
  | None => (Some false, self)
  | Some held =>
      if held <? quantity then (Some false, self)
      else if fits_float quantity then
        (Some (fst (sell_shares self symbol quantity)),
         snd (sell_shares self symbol quantity))
      else
        (None,
         {| account_id := account_id self;
            balance := balance self;
            initial_deposit := initial_deposit self;
            holdings := holdings (snd (sell_shares self symbol quantity));
            transactions := transactions self |})
  end.

(** A call of [calculate_portfolio_value]: [quantity *
    get_share_price(symbol)] converts every quantity held, so the call
    returns a value when all of them fit and raises otherwise. *)
Definition calculate_portfolio_value_call (self : Account) : option Q :=
  if bool_decide (map_Forall (fun _ quantity => fits_float quantity = true)
                    (holdings self))
  then Some (calculate_portfolio_value self)
  else None.

(** The script at the end of accounts.py, replayed. *)
Definition demo_account : Account :=
  let a0 := new_account "user123" (1000 # 1) in
  let a1 := deposit a0 (500 # 1) in
  let a2 := snd (withdraw a1 (200 # 1)) in
  let a3 := snd (buy_shares a2 "AAPL" 5) in
  snd (sell_shares a3 "AAPL" 3).

(** *** Clients of an account *)

(** The calls a client makes on an account; app.py issues them from its
    buttons, test_accounts.py from its tests. *)
Inductive Operation : Type :=
| OpDeposit (amount : Q)
| OpWithdraw (amount : Q)
| OpBuy (symbol : string) (quantity : Z)
| OpSell (symbol : string) (quantity : Z).

(** The account after a call; the [bool] of the call is dropped. *)
Definition perform (self : Account) (op : Operation) : Account :=
  match op with
  | OpDeposit amount => deposit self amount
  | OpWithdraw amount => snd (withdraw self amount)
  | OpBuy symbol quantity => snd (buy_shares self symbol quantity)
  | OpSell symbol quantity => snd (sell_shares self symbol quantity)
  end.

(** The account after a sequence of calls. *)
Definition perform_all (self : Account) (ops : list Operation) : Account :=
  fold_left perform ops self.

(** The arguments that the sliders of app.py can send: amounts from [0]
    and quantities from [1]. *)
Definition in_slider_range (op : Operation) : Prop :=
  match op with
  | OpDeposit amount | OpWithdraw amount => (0 <= amount)%Q
  | OpBuy _ quantity | OpSell _ quantity => 1 <= quantity
  end.

(** Every symbol held is held in a positive quantity. *)
Definition positive_holdings (self : Account) : Prop :=
  map_Forall (fun _ quantity => 0 < quantity) (holdings self).

End Accounts.

(* ===================================================================== *)
(** ** The deep-research pipeline *)
(* ===================================================================== *)

Module Research.

(** *** Python built-ins used by the pipeline *)

(** The line feed written ["\n"] in the source. *)
Definition LF : string := String (Ascii.ascii_of_N 10) EmptyString.

(** [str.isspace] on the code points below 256. *)
Definition isspace (c : Ascii.ascii) : bool :=
  let n := Ascii.N_of_ascii c in
  ((9 <=? n) && (n <=? 13) || (28 <=? n) && (n <=? 32)
   || (n =? 133) || (n =? 160))%N.

Fixpoint lstrip (s : string) : string :=
  match s with
  | EmptyString => EmptyString
  | String c s' => if isspace c then lstrip s' else s
  end.

Fixpoint rstrip (s : string) : string :=
  match s with
  | EmptyString => EmptyString
  | String c s' =>
      match rstrip s' with
      | EmptyString => if isspace c then EmptyString else String c EmptyString
      | kept => String c kept
      end
  end.

(** [s.strip()] *)
Definition strip (s : string) : string := rstrip (lstrip s).

(** Truth value of a [str]: non-empty. *)
Definition truthy (s : string) : bool :=
  match s with
  | EmptyString => false
  | String _ _ => true
  end.

(** [str(n)] for a non-negative [int], as an f-string prints it. *)
Definition str_int (n : nat) : string :=
  NilEmpty.string_of_uint (Nat.to_uint n).

(** Instances of [Exception], by the class an [except] clause of the
    source tells apart, with their [str(e)]. *)
Inductive ExceptionClass : Type := RuntimeError | EOFError | OtherException.

Record exn : Type := mkExn { exn_class : ExceptionClass; exn_str : string }.

(** *** Data exchanged with the agents *)

(** product_manager_agent.py: [Question], and [Questions] with its list
    field [searches]. *)
Record Question : Type := mkQuestion {
  q_reason : string;
  q_question : string
}.

Record Questions : Type := mkQuestions { q_searches : list Question }.

(** planner_agent.py: [WebSearchItem] and [WebSearchPlan]. *)
Record WebSearchItem : Type := mkWebSearchItem {
  s_reason : string;
  s_query : string
}.

Record WebSearchPlan : Type := mkWebSearchPlan { searches : list WebSearchItem }.

(** Modelled from the spec: [ReportData] of writer_agent.py, which is not
    among the sources: "a long-form text report plus whatever
    summary/metadata fields the Report Writer attaches". The pipeline
    reads [markdown_report] only. *)
Record ReportData : Type := mkReportData {
  short_summary : string;
  markdown_report : string
}.

Inductive Agent : Type :=
| product_manager_agent
| planner_agent
| search_agent
| writer_agent
| email_agent.

(** The type of [result.final_output] for each agent. *)
Definition final_output (a : Agent) : Type :=
  match a with
  | product_manager_agent => Questions
  | planner_agent => WebSearchPlan
  | search_agent => string
  | writer_agent => ReportData
  | email_agent => unit
  end.

(** What [asyncio.get_event_loop()] finds in the calling thread. *)
Inductive LoopState : Type := NoCurrentLoop | LoopRunning | LoopIdle.

(** Everything the program takes from its environment during one run.
    [gen_trace_id] and [event_loop] are what this run finds; [Process]
    below follows them from one run to the next. *)
Record Runtime : Type := mkRuntime {
  (** the answer of the hosted agent to a prompt, or the exception that
      [Runner.run] raises *)
  respond : forall a : Agent, string -> exn + final_output a;
  (** the value returned by [gen_trace_id()] *)
  gen_trace_id : string;
  (** [asyncio.as_completed]: the positions of [n] dispatched tasks in
      the order in which they finish *)
  completion_order : nat -> list nat;
  (** Python's rendering of a list of [str] inside an f-string *)
  list_repr : list string -> string;
  event_loop : LoopState
}.

(** *** Program state *)

(** An entry of [response_components]. *)
Record Component : Type := mkComponent {
  label : string;
  placeholder : string;
  lines : Z
}.

(** class [ResearchSession] *)
Record ResearchSession : Type := mkSession {
  current_questions : list Question;
  current_query : string;
  response_components : list Component
}.

(** The module-level [session] object, the lines still to be read from
    the standard input, and the log of the calls made to [Runner.run]. *)
Record World : Type := mkWorld {
  session : ResearchSession;
  stdin : list string;
  calls : list (Agent * string)
}.

(** *** Computations

    A function, coroutine or async generator of the source is a [Py A]:
    from the world it starts in, the elements it yields (none for a plain
    function), the value it returns or the exception that leaves it, and
    the world it ends in. *)
Record Step (A : Type) : Type := mkStep {
  yielded : list string;
  outcome : exn + A;
  world : World
}.
Arguments mkStep {A} _ _ _.
Arguments yielded {A} _.
Arguments outcome {A} _.
Arguments world {A} _.

Definition Py (A : Type) : Type := World -> Step A.

#[global] Instance Py_ret : MRet Py :=
  fun A (a : A) (w : World) => mkStep [] (inr a) w.

#[global] Instance Py_bind : MBind Py :=
  fun A B (k : A -> Py B) (m : Py A) (w : World) =>
    let r := m w in
    match outcome r with
    | inl e => mkStep (yielded r) (inl e) (world r)
    | inr a =>
        let r' := k a (world r) in
        mkStep (yielded r ++ yielded r') (outcome r') (world r')
    end.

Definition raise {A : Type} (e : exn) : Py A :=
  fun w => mkStep [] (inl e) w.

(** [yield s] *)
Definition yield (s : string) : Py unit :=
  fun w => mkStep [s] (inr tt) w.

(** [try: body  except Exception as e: handler e] *)
Definition try_except {A : Type} (body : Py A) (handler : exn -> Py A) : Py A :=
  fun w =>
    let r := body w in
    match outcome r with
    | inl e =>
        let r' := handler e (world r) in
        mkStep (yielded r ++ yielded r') (outcome r') (world r')
    | inr _ => r
    end.

(** [try: body  except RuntimeError: handler] *)
Definition try_except_RuntimeError {A : Type} (body : Py A) (handler : Py A)
  : Py A :=
  fun w =>
    let r := body w in
    match outcome r with
    | inl (mkExn RuntimeError _) =>
        let r' := handler (world r) in
        mkStep (yielded r ++ yielded r') (outcome r') (world r')
    | _ => r
    end.

Definition get_session : Py ResearchSession :=
  fun w => mkStep [] (inr (session w)) w.

Definition set_session (s : ResearchSession) : Py unit :=
  fun w => mkStep [] (inr tt) (mkWorld s (stdin w) (calls w)).

(** [input(prompt)]: the next line of the standard input, [EOFError] when
    there is none. *)
Definition input : Py string :=
  fun w =>
    match stdin w with
    | [] => mkStep [] (inl (mkExn EOFError "EOF when reading a line")) w
    | line :: rest => mkStep [] (inr line) (mkWorld (session w) rest (calls w))
    end.

(** [async for chunk in gen: acc = body acc chunk], then return [acc]. *)
Definition async_for {A : Type} (gen : Py A) (body : string -> string -> string)
  (init : string) : Py string :=
  fun w =>
    let r := gen w in
    mkStep []
      match outcome r with
      | inl e => inl e
      | inr _ => inr (fold_left body (yielded r) init)
      end
      (world r).

(** *** research_manager.py *)

Section WithRuntime.

Variable rt : Runtime.

(** [await Runner.run(agent, prompt)]: the call is logged, then the agent
    answers or the call raises. *)
Definition Runner_run (agent : Agent) (prompt : string)
  : Py (final_output agent) :=
  fun w =>
    mkStep [] (respond rt agent prompt)
      (mkWorld (session w) (stdin w) (calls w ++ [(agent, prompt)])).

(** class [ResearchManager]: [__init__] sets no attribute. *)
Inductive ResearchManager : Type := new_ResearchManager.

Definition _get_trace_url (trace_id : string) : string :=
  "https://platform.openai.com/traces/trace?trace_id=" +:+ trace_id.

(** The prompt [input_text] of [_plan_searches]. *)
Definition input_text (query questions_and_responses : string) : string :=
  "Query: " +:+ query +:+ LF +:+ "Questions and Responses:" +:+ LF
  +:+ questions_and_responses.

Definition _plan_searches (self : ResearchManager)
  (query questions_and_responses : string) : Py WebSearchPlan :=
  result ← Runner_run planner_agent (input_text query questions_and_responses);
  mret result.

(** The prompt [search_input] of [_search]. *)
Definition search_input (item : WebSearchItem) : string :=
  "Search term: " +:+ s_query item +:+ LF +:+ "Reason for searching: "
  +:+ s_reason item.

Definition _search (self : ResearchManager) (item : WebSearchItem)
  : Py (option string) :=
  try_except
    (result ← Runner_run search_agent (search_input item);
     mret (Some result))
    (fun e => mret None).

(** The loop [for task in asyncio.as_completed(tasks)]: [finished] holds
    what each task returned, by position. *)
Fixpoint collect_completed (finished : list (option string))
  (order : list nat) (results : list string) : list string :=
  match order with
  | [] => results
  | i :: order' =>
      match finished !! i with
      | Some (Some result) =>
          collect_completed finished order' (results ++ [result])
      | _ => collect_completed finished order' results
      end
  end.

Definition _perform_searches (self : ResearchManager)
  (search_plan : WebSearchPlan) : Py (list string) :=
  finished ← mapM (_search self) (searches search_plan);
  mret (collect_completed finished
          (completion_order rt (length finished)) []).

(** The prompt [report_input] of [_write_report]. *)
Definition report_input (query : string) (search_results : list string)
  : string :=
  "Original query: " +:+ query +:+ LF +:+ "Summarized search results: "
  +:+ list_repr rt search_results.

Definition _write_report (self : ResearchManager) (query : string)
  (search_results : list string) : Py ReportData :=
  result ← Runner_run writer_agent (report_input query search_results);
  mret result.

Definition _send_email (self : ResearchManager) (report : ReportData)
  : Py unit :=
  _ ← Runner_run email_agent (markdown_report report);
  mret tt.

Definition _execute_research_pipeline (self : ResearchManager)
  (query questions_and_responses : string) : Py unit :=
  search_plan ← _plan_searches self query questions_and_responses;
  yield "Searches planned, starting to search...";;
  search_results ← _perform_searches self search_plan;
  yield "Searches complete, writing report...";;
  report ← _write_report self query search_results;
  yield "Report written, sending email...";;
  _send_email self report;;
  yield "Email sent, research complete";;
  yield (markdown_report report).

Definition run_with_responses (self : ResearchManager)
  (query questions_and_responses : string) : Py unit :=
  let trace_id := gen_trace_id rt in
  yield (_get_trace_url trace_id);;
  yield "Starting research with your responses...";;
  _execute_research_pipeline self query questions_and_responses.

(** One line of the transcript:
    [f"{i}. {question_item.question} - Response: {response}\n"]. *)
Definition transcript_line (i : nat) (question_item : Question)
  (response : string) : string :=
  str_int i +:+ ". " +:+ q_question question_item +:+ " - Response: "
  +:+ response +:+ LF.

(** The loop of [_interactive_question_collection], from question [i]. *)
Fixpoint ask_from (i : nat) (questions : list Question)
  (questions_and_responses : string) : Py string :=
  match questions with
  | [] => mret questions_and_responses
  | question_item :: rest =>
      line ← input;
      let user_response := strip line in
      ask_from (S i) rest
        (questions_and_responses +:+ transcript_line i question_item user_response)
  end.

Definition _interactive_question_collection (self : ResearchManager)
  (questions : list Question) : Py string :=
  ask_from 1 questions "".

Definition _collect_user_insights (self : ResearchManager) (query : string)
  : Py string :=
  result ← Runner_run product_manager_agent ("Query: " +:+ query);
  _interactive_question_collection self (q_searches result).

Definition run (self : ResearchManager) (query : string) : Py unit :=
  let trace_id := gen_trace_id rt in
  yield (_get_trace_url trace_id);;
  questions_and_responses ← _collect_user_insights self query;
  _execute_research_pipeline self query questions_and_responses.

(** *** deep_research.py *)

(** [AsyncHelper.run_async(coro)]. Without a current loop
    [get_event_loop] raises [RuntimeError] and the handler runs the
    coroutine. Otherwise the coroutine is run inside the [try], and a
    [RuntimeError] leaving it reaches the same handler, whose
    [asyncio.run(coro)] then fails, with the message of asyncio in
    CPython 3.11. What the handler does to the current event loop of
    the thread is [loop_after_run_async] below. *)
Definition run_async {A : Type} (coro : Py A) : Py A :=
  match event_loop rt with
  | NoCurrentLoop => coro
  | LoopRunning =>
      try_except_RuntimeError coro
        (raise (mkExn RuntimeError
                  "asyncio.run() cannot be called from a running event loop"))
  | LoopIdle =>
      try_except_RuntimeError coro
        (raise (mkExn RuntimeError "cannot reuse already awaited coroutine"))
  end.

Definition _format_questions_for_display (questions : list Question) : string :=
  (fix loop (i : nat) (questions : list Question) (questions_text : string) :=
     match questions with
     | [] => questions_text
     | question_item :: rest =>
         loop (S i) rest
           (questions_text
            +:+ ("**Question " +:+ str_int i +:+ ":** "
                 +:+ q_question question_item +:+ LF +:+ LF)
            +:+ ("*Reason: " +:+ q_reason question_item +:+ "*" +:+ LF +:+ LF))
     end) 1%nat questions
    ("## Please answer these questions to help with your research:"
     +:+ LF +:+ LF).

Definition _create_placeholder_text (question : string) : string :=
  let truncated_question :=
    String.substring 0 30 question
    +:+ (if (30 <? String.length question)%nat then "..." else "") in
  "Your answer to: " +:+ truncated_question.

Definition _create_response_components (questions : list Question)
  : list Component :=
  (fix loop (i : nat) (questions : list Question)
     (response_components : list Component) :=
     match questions with
     | [] => response_components
     | question_item :: rest =>
         loop (S i) rest
           (response_components
            ++ [{| label :=
                     "Question " +:+ str_int i +:+ ": " +:+ q_question question_item;
                   placeholder := _create_placeholder_text (q_question question_item);
                   lines := 2 |}])
     end) 1%nat questions [].

(** Returns [(questions_text, visible, response_components)]. *)
Definition generate_questions (query : string)
  : Py (string * bool * list Component) :=
  s ← get_session;
  set_session (mkSession (current_questions s) query (response_components s));;
  try_except
    (result ← run_async (Runner_run product_manager_agent ("Query: " +:+ query));
     s ← get_session;
     set_session
       (mkSession (q_searches result) (current_query s) (response_components s));;
     s ← get_session;
     let questions_text := _format_questions_for_display (current_questions s) in
     set_session
       (mkSession (current_questions s) (current_query s)
          (_create_response_components (current_questions s)));;
     s ← get_session;
     mret (questions_text, true, response_components s))
    (fun e => mret ("Error generating questions: " +:+ exn_str e, false, [])).

(** [resp is not None and str(resp).strip()] *)
Definition keep_response (resp : option string) : option string :=
  match resp with
  | Some text => if truthy (strip text) then Some text else None
  | None => None
  end.

(** [[resp for resp in responses if resp is not None and str(resp).strip()]] *)
Definition valid_responses (responses : list (option string)) : list string :=
  omap keep_response responses.

Definition _validate_responses (responses : list (option string))
  : Py (option string) :=
  let valid_responses := valid_responses responses in
  s ← get_session;
  if negb (length valid_responses =? length (current_questions s))%nat then
    mret (Some
            ("Please provide answers for all "
             +:+ str_int (length (current_questions s)) +:+ " questions. "
             +:+ "You provided " +:+ str_int (length valid_responses)
             +:+ " answers."))
  else mret None.

(** The loop of [_format_questions_and_responses] over the zipped pairs. *)
Fixpoint format_from (i : nat) (pairs : list (Question * string))
  (questions_and_responses : string) : string :=
  match pairs with
  | [] => questions_and_responses
  | (question_item, response) :: rest =>
      format_from (S i) rest
        (questions_and_responses +:+ transcript_line i question_item response)
  end.

Definition _format_questions_and_responses (responses : list (option string))
  : Py string :=
  let valid_responses := valid_responses responses in
  s ← get_session;
  mret (format_from 1 (zip (current_questions s) valid_responses) "").

(** The coroutine [async_run] local to [_execute_research]. *)
Definition async_run (research_manager : ResearchManager)
  (questions_and_responses : string) : Py string :=
  s ← get_session;
  async_for
    (run_with_responses research_manager (current_query s) questions_and_responses)
    (fun result chunk => result +:+ chunk +:+ LF +:+ LF)
    "".

Definition _execute_research (questions_and_responses : string) : Py string :=
  let research_manager := new_ResearchManager in
  try_except
    (run_async (async_run research_manager questions_and_responses))
    (fun e => mret ("Error running research: " +:+ exn_str e)).

Definition run_research (responses : list (option string)) : Py string :=
  validation_result ← _validate_responses responses;
  match validation_result with
  | Some message =>
      if truthy message then mret message
      else
        questions_and_responses ← _format_questions_and_responses responses;
        _execute_research questions_and_responses
  | None =>
      questions_and_responses ← _format_questions_and_responses responses;
      _execute_research questions_and_responses
  end.

(** The number of answer boxes that [GradioInterface] creates, whose
    values it passes to [run_research_with_filtered_inputs]. *)
Definition MAX_QUESTIONS : nat := 10.

(** [GradioInterface.run_research_with_filtered_inputs] *)
Definition run_research_with_filtered_inputs (all_responses : list (option string))
  : Py string :=
  s ← get_session;
  let relevant_responses :=
    match current_questions s with
    | [] => []
    | _ => take (length (current_questions s)) all_responses
    end in
  run_research relevant_responses.

End WithRuntime.

(** *** Consecutive runs in one process

    Two things that a run takes from its environment are not the same
    for the next run of the process: every call of [gen_trace_id()]
    returns a new identifier, and the handler of [run_async] replaces
    the current event loop of the thread. *)






(** *** Vocabulary of the properties *)

(** The world after further calls to [Runner.run]. *)
Definition logged (w : World) (new_calls : list (Agent * string)) : World :=
  mkWorld (session w) (stdin w) (calls w ++ new_calls).

(** What the task of [item] returns: the text found, or [None] when the
    call to the search agent raises. *)
Definition search_result (rt : Runtime) (item : WebSearchItem) : option string :=
  match respond rt search_agent (search_input item) with
  | inr text => Some text
  | inl _ => None
  end.

Definition search_succeeds (rt : Runtime) (item : WebSearchItem) : bool :=
  match respond rt search_agent (search_input item) with
  | inr _ => true
  | inl _ => false
  end.

(** The calls to the search agent that a plan gives rise to, one per
    task, in the order of dispatch. *)
Definition search_calls (search_plan : WebSearchPlan) : list (Agent * string) :=
  map (fun item => (search_agent, search_input item)) (searches search_plan).

(** The results handed to the writer for a plan. *)
Definition search_results (rt : Runtime) (search_plan : WebSearchPlan)
  : list string :=
  collect_completed (map (search_result rt) (searches search_plan))
    (completion_order rt (length (searches search_plan))) [].

(** Every dispatched task finishes exactly once. *)
Definition every_task_completes (rt : Runtime) (n : nat) : Prop :=
  completion_order rt n ≡ₚ seq 0 n.

Definition starts_with_space (s : string) : bool :=
  match s with
  | EmptyString => false
  | String c _ => isspace c
  end.

Fixpoint ends_with_space (s : string) : bool :=
  match s with
  | EmptyString => false
  | String c EmptyString => isspace c
  | String _ s' => ends_with_space s'
  end.

(** No white space at either end. *)
Definition trimmed (s : string) : bool :=
  negb (starts_with_space s) && negb (ends_with_space s).

(** The text that [async_run] accumulates from the chunks it receives. *)
Definition joined (chunks : list string) : string :=
  fold_left (fun result chunk => result +:+ chunk +:+ LF +:+ LF) chunks "".

(** [str(e)] for the exception that reaches the handler of
    [_execute_research] when [e] leaves the coroutine: [run_async]
    replaces a [RuntimeError] when there is a current event loop. *)
Definition reported_message (rt : Runtime) (e : exn) : string :=
  match event_loop rt, exn_class e with
  | LoopRunning, RuntimeError =>
      "asyncio.run() cannot be called from a running event loop"
  | LoopIdle, RuntimeError => "cannot reuse already awaited coroutine"
  | _, _ => exn_str e
  end.

(** The message of [_validate_responses]. *)
Definition validation_message (expected provided : nat) : string :=
  "Please provide answers for all " +:+ str_int expected
  +:+ " questions. " +:+ "You provided " +:+ str_int provided
  +:+ " answers.".

(** *** A scripted runtime, for running the pipeline on examples *)

Definition demo_questions : Questions :=
  mkQuestions
    [ mkQuestion "budget matters" "What is your budget?";
      mkQuestion "use decides the hardware" "What will you use it for?";
      mkQuestion "size matters" "Which screen size do you prefer?" ].

Definition demo_plan : WebSearchPlan :=
  mkWebSearchPlan
    [ mkWebSearchItem "prices" "budget laptops under 500";
      mkWebSearchItem "reviews" "laptop reviews 2024";
      mkWebSearchItem "screens" "14 inch laptops" ].

Definition demo_report : ReportData :=
  mkReportData "three good laptops" "# Best budget laptops 2024".

(** The agents answer as scripted; the search for [failing_query] (if
    any), the writer and the mailer raise when told to. Tasks finish in the
    reverse of the order of dispatch. *)
Definition demo_respond (failing_query : option string)
  (writer_ok email_ok : bool) (a : Agent) (prompt : string)
  : exn + final_output a :=
  match a return exn + final_output a with
  | product_manager_agent => inr demo_questions
  | planner_agent => inr demo_plan
  | search_agent =>
      match failing_query with
      | Some text =>
          if String.eqb prompt (search_input (mkWebSearchItem "reviews" text))
          then inl (mkExn OtherException "search timed out")
          else inr ("Found: " +:+ prompt)
      | None => inr ("Found: " +:+ prompt)
      end
  | writer_agent =>
      if writer_ok then inr demo_report
      else inl (mkExn OtherException "writer unavailable")
  | email_agent =>
      if email_ok then inr tt
      else inl (mkExn OtherException "SMTP connection refused")
  end.

Definition demo_runtime (failing_query : option string)
  (writer_ok email_ok : bool) : Runtime :=
  {| respond := demo_respond failing_query writer_ok email_ok;
     gen_trace_id := "trace_0123";
     completion_order := fun n => rev (seq 0 n);
     list_repr := fun results => "[" +:+ String.concat ", " results +:+ "]";
     event_loop := NoCurrentLoop |}.

Definition agent_eqb (a b : Agent) : bool :=
  match a, b with
  | product_manager_agent, product_manager_agent
  | planner_agent, planner_agent
  | search_agent, search_agent
  | writer_agent, writer_agent
  | email_agent, email_agent => true
  | _, _ => false
  end.

(** The scripted agents again, except that every call to the agent
    [failing] raises [e]; tasks finish in the order of dispatch. *)
Definition failing_respond (failing : Agent) (e : exn) (a : Agent)
  (prompt : string) : exn + final_output a :=
  if agent_eqb a failing then inl e else demo_respond None true true a prompt.

Definition failing_runtime (failing : Agent) (e : exn) (loop : LoopState)
  : Runtime :=
  {| respond := failing_respond failing e;
     gen_trace_id := "trace_0123";
     completion_order := fun n => seq 0 n;
     list_repr := fun results => "[" +:+ String.concat ", " results +:+ "]";
     event_loop := loop |}.


Definition demo_session : ResearchSession :=
  mkSession (q_searches demo_questions) "best budget laptops 2024" [].

Definition demo_world : World := mkWorld demo_session [] [].

Definition demo_transcript : string :=
  "1. What is your budget? - Response: 500" +:+ LF
  +:+ "2. What will you use it for? - Response: study" +:+ LF
  +:+ "3. Which screen size do you prefer? - Response: 14 inch" +:+ LF.

End Research.

(* ===================================================================== *)
(** ** Properties of the trading account *)
(* ===================================================================== *)

Section AccountProperties.

Import Accounts.

Example demo_account_balance : balance demo_account = 1000 # 1.
Proof. vm_compute. reflexivity. Qed.

Example demo_account_holdings : holdings demo_account !! "AAPL" = Some 2.
Proof. vm_compute. reflexivity. Qed.

Example demo_account_value :
  calculate_portfolio_value demo_account = 1300 # 1.
Proof. vm_compute. reflexivity. Qed.

(** The refusals exercised by test_accounts.py. *)
Example withdraw_insufficient_funds :
  withdraw (new_account "user123" (1000 # 1)) (2000 # 1)
  = (false, new_account "user123" (1000 # 1)).
Proof. reflexivity. Qed.

Example buy_shares_insufficient_funds :
  fst (buy_shares (new_account "user123" (1000 # 1)) "AAPL" 10) = false.
Proof. reflexivity. Qed.

Example sell_shares_not_enough :
  fst (sell_shares (snd (buy_shares (new_account "user123" (1000 # 1)) "AAPL" 2))
         "AAPL" 3)
  = false.
Proof. vm_compute. reflexivity. Qed.

(** Exact sums of amounts do not depend on the order of the terms. *)
Lemma Qplus_swap (y a b : Q) : (y + a + b = y + b + a)%Q.
Proof.
  destruct y as [yn yd], a as [an ad], b as [bn bd].
  unfold Qplus; cbn [Qnum Qden]. f_equal.
  - rewrite !Pos2Z.inj_mul. ring.
  - rewrite <- !Pos.mul_assoc. f_equal. apply Pos.mul_comm.
Qed.

Lemma add_position_comm (j1 j2 : string) (z1 z2 : Z) (y : Q) :
  add_position j1 z1 (add_position j2 z2 y)
  = add_position j2 z2 (add_position j1 z1 y).
Proof. unfold add_position. apply Qplus_swap. Qed.

Lemma Qminus_free (b : Q) (quantity : Z) :
  (b - (0 # 1) * inject_Z quantity = b)%Q.
Proof.
  destruct b as [n d]. unfold Qminus, Qplus, Qopp, Qmult; cbn.
  rewrite Z.mul_1_r, Z.add_0_r, Pos.mul_1_r. reflexivity.
Qed.

Lemma add_position_free (symbol : string) (quantity : Z) (total : Q) :
  get_share_price symbol = 0 # 1 ->
  add_position symbol quantity total = total.
Proof.
  intros Hprice. unfold add_position. rewrite Hprice.
  destruct total as [n d]. unfold Qplus, Qmult; cbn.
  rewrite Z.mul_0_r, Z.mul_1_r, Z.add_0_r, Pos.mul_1_r. reflexivity.
Qed.

Lemma get_share_price_unlisted (symbol : string) :
  symbol <> "AAPL" -> symbol <> "TSLA" -> symbol <> "GOOGL" ->
  get_share_price symbol = 0 # 1.
Proof.
  intros H1 H2 H3. unfold get_share_price.
  apply String.eqb_neq in H1, H2, H3. rewrite H1, H2, H3. reflexivity.
Qed.

(** Holding a position, of any size, in a symbol priced [0.0] does not
    change the value of the portfolio. *)
Lemma map_fold_free_position (symbol : string) (quantity : Z) (b : Q)
  (m : gmap string Z) :
  get_share_price symbol = 0 # 1 ->
  map_fold add_position b (<[symbol := quantity]> m)
  = map_fold add_position b (delete symbol m).
Proof.
  intros Hprice. rewrite <- insert_delete_eq.
  rewrite map_fold_insert_L.
  - apply add_position_free, Hprice.
  - intros; apply add_position_comm.
  - apply lookup_delete_eq.
Qed.

Lemma map_fold_free_delete (symbol : string) (b : Q) (m : gmap string Z) :
  get_share_price symbol = 0 # 1 ->
  map_fold add_position b (delete symbol m) = map_fold add_position b m.
Proof.
  intros Hprice. destruct (m !! symbol) as [held|] eqn:Hheld.
  - rewrite (map_fold_delete_L add_position b symbol held m).
    + symmetry. apply add_position_free, Hprice.
    + intros; apply add_position_comm.
    + exact Hheld.
  - rewrite delete_id by exact Hheld. reflexivity.
Qed.

(** C9. Every successful [deposit], [withdraw], [buy_shares] or
    [sell_shares] appends exactly one record to [transactions], and a
    [withdraw], [buy_shares] or [sell_shares] that returns [False]
    leaves the account (balance, holdings and transactions) as it was. *)
Theorem operations_log_or_leave_unchanged (self : Account) (amount : Q)
  (symbol : string) (quantity : Z) :
  transactions (deposit self amount)
    = transactions self ++ [TxDeposit amount]
  /\ match withdraw self amount with
     | (true, self') =>
         transactions self' = transactions self ++ [TxWithdraw amount]
     | (false, self') => self' = self
     end
  /\ match buy_shares self symbol quantity with
     | (true, self') =>
         transactions self'
         = transactions self ++ [TxBuy symbol quantity (get_share_price symbol)]
     | (false, self') => self' = self
     end
  /\ match sell_shares self symbol quantity with
     | (true, self') =>
         transactions self'
         = transactions self ++ [TxSell symbol quantity (get_share_price symbol)]
     | (false, self') => self' = self
     end.
Proof.
  repeat split.
  - unfold withdraw. destruct (Qgtb amount (balance self)); reflexivity.
  - unfold buy_shares. cbv zeta.
    destruct (Qgtb _ (balance self)); reflexivity.
  - unfold sell_shares. destruct (holdings self !! symbol) as [held|]; [|reflexivity].
    destruct (held <? quantity); reflexivity.
Qed.

(** C10, as the code has it. For a symbol outside the price table the
    price is [0.0]. A call of [buy_shares] with a quantity that does
    not convert to a [float] raises [OverflowError] and changes
    nothing. With a quantity that converts, the call returns [True]
    exactly when the balance is not negative; it then leaves the
    balance as it was, adds the quantity to the holdings of the symbol
    and leaves the other holdings, and [calculate_portfolio_value],
    where it returned a value before, returns that value when the new
    holding converts and raises when it does not: shares of the symbol
    count for [0.0]. With a negative balance the call returns [False]
    and changes nothing. *)
Theorem buy_unlisted_symbol (self : Account) (symbol : string) (quantity : Z) :
  symbol <> "AAPL" -> symbol <> "TSLA" -> symbol <> "GOOGL" ->
  get_share_price symbol = 0 # 1
  /\ (fits_float quantity = false ->
      buy_shares_call self symbol quantity = (None, self))
  /\ (fits_float quantity = true -> (0 <= balance self)%Q ->
      exists self',
        buy_shares_call self symbol quantity = (Some true, self')
        /\ balance self' = balance self
        /\ holdings self' !! symbol
           = Some (default 0 (holdings self !! symbol) + quantity)
        /\ (forall other, other <> symbol ->
              holdings self' !! other = holdings self !! other)
        /\ (forall value,
              calculate_portfolio_value_call self = Some value ->
              calculate_portfolio_value_call self'
              = if fits_float (default 0 (holdings self !! symbol) + quantity)
                then Some value else None))
  /\ (fits_float quantity = true -> (balance self < 0)%Q ->
      buy_shares_call self symbol quantity = (Some false, self))
  /\ (forall held : Z,
        fits_float held = true ->
        (inject_Z held * get_share_price symbol == 0)%Q).
Proof.
  intros H1 H2 H3.
  pose proof (get_share_price_unlisted symbol H1 H2 H3) as Hprice.
  assert (Hcost : ((0 # 1) * inject_Z quantity)%Q = 0 # 1).
  { unfold Qmult; cbn. reflexivity. }
  split; [exact Hprice|]. split; [|split; [|split]].
  - intros Hfits. unfold buy_shares_call. rewrite Hfits. reflexivity.
  - intros Hfits Hbal. unfold buy_shares_call. rewrite Hfits.
    unfold buy_shares. cbv zeta. rewrite Hprice, Hcost. unfold Qgtb.
    apply Qle_bool_iff in Hbal. rewrite Hbal. cbn [negb fst snd].
    assert (Hb : (balance self - (0 # 1))%Q = balance self).
    { rewrite <- Hcost. apply Qminus_free. }
    eexists. split; [reflexivity|]. cbn [balance holdings].
    split; [exact Hb|]. split; [|split].
    + destruct (holdings self !! symbol) as [held|];
        cbn [default]; rewrite lookup_insert_eq; reflexivity.
    + intros other Hother.
      destruct (holdings self !! symbol) as [held|];
        rewrite lookup_insert_ne by congruence; reflexivity.
    + intros value. unfold calculate_portfolio_value_call.
      cbn [holdings]. case_bool_decide as Hall; [|discriminate].
      intros Hvalue. injection Hvalue as <-.
      assert (Hsame :
        calculate_portfolio_value
          {| account_id := account_id self;
             balance := (balance self - (0 # 1))%Q;
             initial_deposit := initial_deposit self;
             holdings :=
               match holdings self !! symbol with
               | Some held => <[symbol := held + quantity]> (holdings self)
               | None => <[symbol := quantity]> (holdings self)
               end;
             transactions :=
               transactions self ++ [TxBuy symbol quantity (0 # 1)] |}
        = calculate_portfolio_value self).
      { unfold calculate_portfolio_value. cbn [balance holdings]. rewrite Hb.
        destruct (holdings self !! symbol) as [held|];
          rewrite map_fold_free_position by exact Hprice;
          apply map_fold_free_delete, Hprice. }
      rewrite Hsame.
      assert (Hnew :
        match holdings self !! symbol with
        | Some held => <[symbol := held + quantity]> (holdings self)
        | None => <[symbol := quantity]> (holdings self)
        end
        = <[symbol := default 0 (holdings self !! symbol) + quantity]>
            (holdings self)).
      { destruct (holdings self !! symbol) as [held|]; reflexivity. }
      rewrite Hnew.
      destruct (fits_float (default 0 (holdings self !! symbol) + quantity))
        eqn:Hheld.
      * rewrite bool_decide_eq_true_2; [reflexivity|].
        apply map_Forall_insert_2; assumption.
      * rewrite bool_decide_eq_false_2; [reflexivity|].
        intros Hforall.
        specialize (Hforall symbol _ (lookup_insert_eq _ _ _)).
        cbn in Hforall. congruence.
  - intros Hfits Hneg. unfold buy_shares_call. rewrite Hfits.
    unfold buy_shares. cbv zeta. rewrite Hprice, Hcost. unfold Qgtb.
    destruct (Qle_bool (0 # 1) (balance self)) eqn:Hle; [|reflexivity].
    apply Qle_bool_iff in Hle. exfalso. exact (Qlt_not_le _ _ Hneg Hle).
  - intros held _. rewrite Hprice. unfold Qeq, Qmult; cbn. lia.
Qed.

End AccountProperties.

(* ===================================================================== *)
(** ** Properties of the research pipeline *)
(* ===================================================================== *)

Section PipelineSteps.

Import Research.

Variable rt : Runtime.

Lemma logged_nil (w : World) : logged w [] = w.
Proof. destruct w. unfold logged; cbn. by rewrite app_nil_r. Qed.

Lemma logged_logged (w : World) (c1 c2 : list (Agent * string)) :
  logged (logged w c1) c2 = logged w (c1 ++ c2).
Proof. unfold logged; cbn. by rewrite app_assoc. Qed.

(** Unfolding one bind. *)
Lemma bind_step {A B : Type} (m : Py A) (k : A -> Py B) (w : World) :
  (m ≫= k) w =
  match outcome (m w) with
  | inl e => mkStep (yielded (m w)) (inl e) (world (m w))
  | inr a =>
      mkStep (yielded (m w) ++ yielded (k a (world (m w))))
        (outcome (k a (world (m w)))) (world (k a (world (m w))))
  end.
Proof. reflexivity. Qed.

Lemma search_step (self : ResearchManager) (item : WebSearchItem) (w : World) :
  _search rt self item w
  = mkStep [] (inr (search_result rt item))
      (logged w [(search_agent, search_input item)]).
Proof.
  unfold _search, try_except, search_result. rewrite bind_step. cbn.
  destruct (respond rt search_agent (search_input item)); reflexivity.
Qed.

Lemma tasks_step (self : ResearchManager) (items : list WebSearchItem) (w : World) :
  mapM (_search rt self) items w
  = mkStep [] (inr (map (search_result rt) items))
      (logged w (map (fun item => (search_agent, search_input item)) items)).
Proof.
  revert w. induction items as [|item items IH]; intros w.
  - cbn. by rewrite logged_nil.
  - cbn [mapM]. rewrite bind_step, search_step. cbn.
    rewrite bind_step, IH. cbn. by rewrite logged_logged.
Qed.

Lemma perform_searches_step (self : ResearchManager) (plan : WebSearchPlan)
  (w : World) :
  _perform_searches rt self plan w
  = mkStep [] (inr (search_results rt plan)) (logged w (search_calls plan)).
Proof.
  unfold _perform_searches. rewrite bind_step, tasks_step. cbn.
  unfold search_results, search_calls. by rewrite length_map.
Qed.


(** The loop over the completed tasks keeps, in the order of completion,
    what the tasks that did not fail returned. *)
Lemma collect_completed_omap (finished : list (option string))
  (order : list nat) (results : list string) :
  collect_completed finished order results
  = results ++ omap (fun i => default None (finished !! i)) order.
Proof.
  revert results. induction order as [|i order IH]; intros results; cbn.
  - by rewrite app_nil_r.
  - destruct (finished !! i) as [[result|]|]; cbn; rewrite IH; [|done..].
    by rewrite <- app_assoc.
Qed.

Lemma omap_positions_shift (x : option string) (finished : list (option string))
  (positions : list nat) :
  omap (fun i => default None ((x :: finished) !! i)) (S <$> positions)
  = omap (fun i => default None (finished !! i)) positions.
Proof.
  induction positions as [|j positions IH]; [done|].
  cbn. by rewrite <- IH.
Qed.

Lemma omap_positions (finished : list (option string)) :
  omap (fun i => default None (finished !! i)) (seq 0 (length finished))
  = omap id finished.
Proof.
  induction finished as [|x finished IH]; [done|].
  cbn [length seq]. rewrite <- fmap_S_seq. cbn [omap list_omap].
  rewrite omap_positions_shift, IH. reflexivity.
Qed.

Lemma collect_completed_permutation (finished : list (option string))
  (order : list nat) :
  order ≡ₚ seq 0 (length finished) ->
  collect_completed finished order [] ≡ₚ omap id finished.
Proof.
  intros Horder. rewrite collect_completed_omap. cbn [app].
  rewrite Horder. by rewrite omap_positions.
Qed.

Lemma search_results_permutation (plan : WebSearchPlan) :
  every_task_completes rt (length (searches plan)) ->
  search_results rt plan ≡ₚ omap (search_result rt) (searches plan).
Proof.
  intros Horder. unfold search_results.
  rewrite collect_completed_permutation by (by rewrite length_map).
  clear Horder. induction (searches plan) as [|item items IH]; [done|].
  cbn. destruct (search_result rt item); cbn; by rewrite IH.
Qed.

Lemma successes_count (items : list WebSearchItem) :
  length (omap (search_result rt) items)
  = length (List.filter (search_succeeds rt) items).
Proof.
  induction items as [|item items IH]; [done|].
  cbn. unfold search_result at 1. unfold search_succeeds at 1.
  destruct (respond rt search_agent (search_input item)); cbn; by rewrite IH.
Qed.


Lemma plan_step (self : ResearchManager) (query qr : string) (w : World) :
  _plan_searches rt self query qr w
  = mkStep [] (respond rt planner_agent (input_text query qr))
      (logged w [(planner_agent, input_text query qr)]).
Proof.
  unfold _plan_searches. rewrite bind_step. unfold Runner_run; cbn.
  destruct (respond rt planner_agent (input_text query qr)); reflexivity.
Qed.

Lemma write_step (self : ResearchManager) (query : string)
  (results : list string) (w : World) :
  _write_report rt self query results w
  = mkStep [] (respond rt writer_agent (report_input rt query results))
      (logged w [(writer_agent, report_input rt query results)]).
Proof.
  unfold _write_report. rewrite bind_step. unfold Runner_run; cbn.
  destruct (respond rt writer_agent (report_input rt query results)); reflexivity.
Qed.

Lemma email_step (self : ResearchManager) (report : ReportData) (w : World) :
  _send_email rt self report w
  = mkStep []
      match respond rt email_agent (markdown_report report) with
      | inl e => inl e
      | inr _ => inr tt
      end
      (logged w [(email_agent, markdown_report report)]).
Proof.
  unfold _send_email. rewrite bind_step. unfold Runner_run; cbn.
  destruct (respond rt email_agent (markdown_report report)); reflexivity.
Qed.

Ltac step :=
  rewrite ?bind_step, ?plan_step, ?perform_searches_step, ?write_step,
    ?email_step;
  cbn [outcome yielded world yield app].

(** The pipeline when the planner raises. *)
Lemma pipeline_planner_raises (self : ResearchManager) (query qr : string)
  (w : World) (e : exn) :
  respond rt planner_agent (input_text query qr) = inl e ->
  _execute_research_pipeline rt self query qr w
  = mkStep [] (inl e) (logged w [(planner_agent, input_text query qr)]).
Proof.
  intros Hplan. unfold _execute_research_pipeline.
  step. rewrite Hplan. reflexivity.
Qed.

(** The pipeline when the writer raises. *)
Lemma pipeline_writer_raises (self : ResearchManager) (query qr : string)
  (w : World) (plan : WebSearchPlan) (e : exn) :
  respond rt planner_agent (input_text query qr) = inr plan ->
  respond rt writer_agent (report_input rt query (search_results rt plan))
    = inl e ->
  _execute_research_pipeline rt self query qr w
  = mkStep
      [ "Searches planned, starting to search...";
        "Searches complete, writing report..." ]
      (inl e)
      (logged w
         ([(planner_agent, input_text query qr)] ++ search_calls plan
          ++ [(writer_agent, report_input rt query (search_results rt plan))])).
Proof.
  intros Hplan Hwrite. unfold _execute_research_pipeline.
  step. rewrite Hplan. repeat step. rewrite Hwrite.
  rewrite !logged_logged. reflexivity.
Qed.

(** The pipeline when the mailer raises. *)
Lemma pipeline_email_raises (self : ResearchManager) (query qr : string)
  (w : World) (plan : WebSearchPlan) (report : ReportData) (e : exn) :
  respond rt planner_agent (input_text query qr) = inr plan ->
  respond rt writer_agent (report_input rt query (search_results rt plan))
    = inr report ->
  respond rt email_agent (markdown_report report) = inl e ->
  _execute_research_pipeline rt self query qr w
  = mkStep
      [ "Searches planned, starting to search...";
        "Searches complete, writing report...";
        "Report written, sending email..." ]
      (inl e)
      (logged w
         ([(planner_agent, input_text query qr)] ++ search_calls plan
          ++ [(writer_agent, report_input rt query (search_results rt plan));
              (email_agent, markdown_report report)])).
Proof.
  intros Hplan Hwrite Hmail. unfold _execute_research_pipeline.
  step. rewrite Hplan. repeat step. rewrite Hwrite. repeat step.
  rewrite Hmail. rewrite !logged_logged. reflexivity.
Qed.

(** The pipeline when the planner, the writer and the mailer answer. *)
Lemma pipeline_completes (self : ResearchManager) (query qr : string)
  (w : World) (plan : WebSearchPlan) (report : ReportData) (u : unit) :
  respond rt planner_agent (input_text query qr) = inr plan ->
  respond rt writer_agent (report_input rt query (search_results rt plan))
    = inr report ->
  respond rt email_agent (markdown_report report) = inr u ->
  _execute_research_pipeline rt self query qr w
  = mkStep
      [ "Searches planned, starting to search...";
        "Searches complete, writing report...";
        "Report written, sending email...";
        "Email sent, research complete";
        markdown_report report ]
      (inr tt)
      (logged w
         ([(planner_agent, input_text query qr)] ++ search_calls plan
          ++ [(writer_agent, report_input rt query (search_results rt plan));
              (email_agent, markdown_report report)])).
Proof.
  intros Hplan Hwrite Hmail. unfold _execute_research_pipeline.
  step. rewrite Hplan. repeat step. rewrite Hwrite. repeat step.
  rewrite Hmail. repeat step.
  rewrite !logged_logged. reflexivity.
Qed.


Lemma run_with_responses_step (self : ResearchManager) (query qr : string)
  (w : World) :
  run_with_responses rt self query qr w
  = mkStep
      (_get_trace_url (gen_trace_id rt)
       :: "Starting research with your responses..."
       :: yielded (_execute_research_pipeline rt self query qr w))
      (outcome (_execute_research_pipeline rt self query qr w))
      (world (_execute_research_pipeline rt self query qr w)).
Proof. reflexivity. Qed.

Lemma async_run_step (self : ResearchManager) (qr : string) (w : World) :
  async_run rt self qr w
  = mkStep []
      match outcome (run_with_responses rt self (current_query (session w)) qr w) with
      | inl e => inl e
      | inr _ =>
          inr (joined (yielded (run_with_responses rt self (current_query (session w)) qr w)))
      end
      (world (run_with_responses rt self (current_query (session w)) qr w)).
Proof. reflexivity. Qed.

(** [run_async] hands on what the coroutine returns. *)
Lemma run_async_returned {A : Type} (coro : Py A) (w w' : World)
  (ys : list string) (a : A) :
  coro w = mkStep ys (inr a) w' -> run_async rt coro w = mkStep ys (inr a) w'.
Proof.
  intros Hcoro. unfold run_async, try_except_RuntimeError.
  destruct (event_loop rt); rewrite Hcoro; reflexivity.
Qed.

(** An exception leaving the coroutine leaves [run_async] too, under the
    message of [reported_message]. *)
Lemma run_async_raised {A : Type} (coro : Py A) (w w' : World) (e : exn) :
  coro w = mkStep [] (inl e) w' ->
  exists e', run_async rt coro w = mkStep [] (inl e') w'
             /\ exn_str e' = reported_message rt e.
Proof.
  intros Hcoro. unfold run_async, try_except_RuntimeError, reported_message.
  destruct e as [cls msg].
  destruct (event_loop rt); rewrite ?Hcoro; cbn; destruct cls; cbn; eauto.
Qed.

Lemma execute_research_returned (qr : string) (w w' : World) (ys : list string) :
  run_with_responses rt new_ResearchManager (current_query (session w)) qr w
    = mkStep ys (inr tt) w' ->
  _execute_research rt qr w = mkStep [] (inr (joined ys)) w'.
Proof.
  intros Hrun. unfold _execute_research, try_except.
  rewrite (run_async_returned _ w w' [] (joined ys)); [reflexivity|].
  rewrite async_run_step, Hrun. reflexivity.
Qed.

Lemma execute_research_raised (qr : string) (w w' : World) (ys : list string)
  (e : exn) :
  run_with_responses rt new_ResearchManager (current_query (session w)) qr w
    = mkStep ys (inl e) w' ->
  _execute_research rt qr w
  = mkStep [] (inr ("Error running research: " +:+ reported_message rt e)) w'.
Proof.
  intros Hrun. unfold _execute_research, try_except.
  destruct (run_async_raised (async_run rt new_ResearchManager qr) w w' e)
    as (e' & -> & <-).
  - rewrite async_run_step, Hrun. reflexivity.
  - reflexivity.
Qed.


(** Whatever the agents do, a run of the pipeline yields, ends and calls
    the agents in a way that does not depend on the world it starts in,
    and it touches nothing of the world but the log of calls. *)
Lemma pipeline_frame (self : ResearchManager) (query qr : string) :
  exists ys o new_calls, forall w,
    _execute_research_pipeline rt self query qr w
    = mkStep ys o (logged w new_calls).
Proof.
  destruct (respond rt planner_agent (input_text query qr)) as [e|plan] eqn:Hplan.
  { do 3 eexists. intros w. by apply pipeline_planner_raises. }
  destruct (respond rt writer_agent (report_input rt query (search_results rt plan)))
    as [e|report] eqn:Hwrite.
  { do 3 eexists. intros w. by eapply pipeline_writer_raises. }
  destruct (respond rt email_agent (markdown_report report)) as [e|u] eqn:Hmail.
  { do 3 eexists. intros w. by eapply pipeline_email_raises. }
  do 3 eexists. intros w. by eapply pipeline_completes.
Qed.

Lemma execute_research_frame (qr : string) (s : ResearchSession) :
  exists text new_calls, forall lines_in log,
    _execute_research rt qr (mkWorld s lines_in log)
    = mkStep [] (inr text) (mkWorld s lines_in (log ++ new_calls)).
Proof.
  destruct (pipeline_frame new_ResearchManager (current_query s) qr)
    as (ys & o & new_calls & Hrun).
  destruct o as [e|[]].
  - exists ("Error running research: " +:+ reported_message rt e), new_calls.
    intros lines_in log.
    eapply execute_research_raised. rewrite run_with_responses_step.
    cbn [session]. rewrite Hrun. reflexivity.
  - exists (joined (_get_trace_url (gen_trace_id rt)
                    :: "Starting research with your responses..." :: ys)),
      new_calls.
    intros lines_in log.
    eapply execute_research_returned. rewrite run_with_responses_step.
    cbn [session]. rewrite Hrun. reflexivity.
Qed.

Lemma validate_step (responses : list (option string)) (w : World) :
  _validate_responses responses w
  = mkStep []
      (inr (if negb (length (valid_responses responses)
                     =? length (current_questions (session w)))%nat
            then Some (validation_message
                         (length (current_questions (session w)))
                         (length (valid_responses responses)))
            else None))
      w.
Proof.
  unfold _validate_responses. rewrite bind_step. cbn [get_session outcome yielded world].
  destruct (negb _); reflexivity.
Qed.

Lemma format_step (responses : list (option string)) (w : World) :
  _format_questions_and_responses responses w
  = mkStep []
      (inr (format_from 1
              (zip (current_questions (session w)) (valid_responses responses)) ""))
      w.
Proof. reflexivity. Qed.

Lemma run_research_rejects (responses : list (option string)) (w : World) :
  length (valid_responses responses) <> length (current_questions (session w)) ->
  run_research rt responses w
  = mkStep []
      (inr (validation_message (length (current_questions (session w)))
              (length (valid_responses responses))))
      w.
Proof.
  intros Hcount. apply Nat.eqb_neq in Hcount.
  unfold run_research. rewrite bind_step, validate_step.
  cbn [outcome yielded world]. rewrite Hcount. cbn [negb]. reflexivity.
Qed.

Lemma run_research_accepts (responses : list (option string)) (w : World) :
  length (valid_responses responses) = length (current_questions (session w)) ->
  run_research rt responses w
  = _execute_research rt
      (format_from 1
         (zip (current_questions (session w)) (valid_responses responses)) "")
      w.
Proof.
  intros Hcount. apply Nat.eqb_eq in Hcount.
  unfold run_research. rewrite bind_step, validate_step.
  cbn [outcome yielded world]. rewrite Hcount. cbn [negb].
  rewrite bind_step, format_step. cbn [outcome yielded world app].
  destruct (_execute_research rt _ w); reflexivity.
Qed.

Lemma run_research_frame (responses : list (option string)) (s : ResearchSession) :
  exists text new_calls, forall lines_in log,
    run_research rt responses (mkWorld s lines_in log)
    = mkStep [] (inr text) (mkWorld s lines_in (log ++ new_calls)).
Proof.
  destruct (decide (length (valid_responses responses) = length (current_questions s)))
    as [Hcount|Hcount].
  - destruct (execute_research_frame
                (format_from 1 (zip (current_questions s) (valid_responses responses)) "") s)
      as (text & new_calls & Hrun).
    exists text, new_calls. intros lines_in log.
    rewrite run_research_accepts by exact Hcount. apply Hrun.
  - exists (validation_message (length (current_questions s))
              (length (valid_responses responses))), [].
    intros lines_in log.
    rewrite run_research_rejects by exact Hcount. by rewrite app_nil_r.
Qed.


(** C1. When every call to a remote agent succeeds, [run_with_responses]
    yields the trace URL, the five progress messages and the markdown
    text of the report written for the searches of the plan, in this
    order and nothing else, and then ends. *)
Theorem run_with_responses_sequence (self : ResearchManager)
  (query questions_and_responses : string) (w : World) :
  (forall (a : Agent) (prompt : string),
     exists answer, respond rt a prompt = inr answer) ->
  exists (plan : WebSearchPlan) (report : ReportData),
    respond rt planner_agent (input_text query questions_and_responses)
      = inr plan
    /\ respond rt writer_agent (report_input rt query (search_results rt plan))
       = inr report
    /\ yielded (run_with_responses rt self query questions_and_responses w)
       = [ "https://platform.openai.com/traces/trace?trace_id=" +:+ gen_trace_id rt;
           "Starting research with your responses...";
           "Searches planned, starting to search...";
           "Searches complete, writing report...";
           "Report written, sending email...";
           "Email sent, research complete";
           markdown_report report ]
    /\ outcome (run_with_responses rt self query questions_and_responses w)
       = inr tt.
Proof.
  intros Hok.
  destruct (Hok planner_agent (input_text query questions_and_responses))
    as [plan Hplan].
  destruct (Hok writer_agent (report_input rt query (search_results rt plan)))
    as [report Hwrite].
  destruct (Hok email_agent (markdown_report report)) as [u Hmail].
  exists plan, report. split; [exact Hplan|]. split; [exact Hwrite|].
  rewrite run_with_responses_step.
  rewrite (pipeline_completes self query questions_and_responses w plan report u)
    by assumption.
  split; reflexivity.
Qed.

(** C2, as the code has it. When planning, searching and writing succeed
    and the call to the email agent raises, nothing catches the
    exception inside the pipeline: [run_with_responses] yields the trace
    URL and the progress messages up to "Report written, sending
    email..." and then raises; it yields neither "Email sent, research
    complete" nor the report. [_execute_research] then returns the
    error text in place of the report. *)
Theorem email_failure_propagates (self : ResearchManager)
  (query questions_and_responses : string) (w : World)
  (plan : WebSearchPlan) (report : ReportData) (e : exn) :
  respond rt planner_agent (input_text query questions_and_responses)
    = inr plan ->
  respond rt writer_agent (report_input rt query (search_results rt plan))
    = inr report ->
  respond rt email_agent (markdown_report report) = inl e ->
  yielded (run_with_responses rt self query questions_and_responses w)
    = [ "https://platform.openai.com/traces/trace?trace_id=" +:+ gen_trace_id rt;
        "Starting research with your responses...";
        "Searches planned, starting to search...";
        "Searches complete, writing report...";
        "Report written, sending email..." ]
  /\ outcome (run_with_responses rt self query questions_and_responses w)
     = inl e
  /\ (current_query (session w) = query ->
      outcome (_execute_research rt questions_and_responses w)
      = inr ("Error running research: " +:+ reported_message rt e)).
Proof.
  intros Hplan Hwrite Hmail.
  pose proof (pipeline_email_raises self query questions_and_responses w
                plan report e Hplan Hwrite Hmail) as Hrun.
  rewrite run_with_responses_step, Hrun.
  split; [reflexivity|]. split; [reflexivity|].
  intros Hquery.
  erewrite execute_research_raised; [reflexivity|].
  rewrite run_with_responses_step, Hquery.
  rewrite (pipeline_email_raises new_ResearchManager query
             questions_and_responses w plan report e Hplan Hwrite Hmail).
  reflexivity.
Qed.

(** C3. When the number of responses that are not [None] and not blank
    differs from the number of questions, [run_research] returns the
    message that names the number of questions and the number of answers
    provided, and leaves the world as it found it: no agent, so no
    search planning, is called. *)
Theorem run_research_validation (responses : list (option string)) (w : World) :
  length (valid_responses responses) <> length (current_questions (session w)) ->
  outcome (run_research rt responses w)
    = inr ("Please provide answers for all "
           +:+ str_int (length (current_questions (session w)))
           +:+ " questions. You provided "
           +:+ str_int (length (valid_responses responses)) +:+ " answers.")
  /\ yielded (run_research rt responses w) = []
  /\ world (run_research rt responses w) = w.
Proof.
  intros Hcount. rewrite run_research_rejects by exact Hcount.
  repeat split.
Qed.

(** C4. Of the N tasks of a plan, the M whose call to the search agent
    returns each contribute one result and the others none:
    [_perform_searches] returns M results, whatever the order in which
    the tasks complete, and M is at most N. *)
Theorem perform_searches_count (self : ResearchManager) (plan : WebSearchPlan)
  (w : World) :
  every_task_completes rt (length (searches plan)) ->
  exists results,
    outcome (_perform_searches rt self plan w) = inr results
    /\ length results
       = length (List.filter (search_succeeds rt) (searches plan))
    /\ (length results <= length (searches plan))%nat.
Proof.
  intros Horder. exists (search_results rt plan).
  rewrite perform_searches_step. split; [reflexivity|].
  assert (Hlen : length (search_results rt plan)
                 = length (List.filter (search_succeeds rt) (searches plan))).
  { rewrite <- successes_count.
    apply Permutation_length, search_results_permutation, Horder. }
  split; [exact Hlen|]. rewrite Hlen. apply List.filter_length_le.
Qed.

(** C5. A task whose call to the search agent raises returns [None] from
    its own [_search], after that single call. In a plan that contains
    it, [_perform_searches] still returns, with exactly the results of
    the other tasks that succeed, after one call per task; and the run
    goes on to write and send the report. *)
Theorem failed_search_is_isolated (self : ResearchManager)
  (before after : list WebSearchItem) (item : WebSearchItem) (w : World)
  (e : exn) :
  every_task_completes rt (length (before ++ item :: after)) ->
  respond rt search_agent (search_input item) = inl e ->
  _search rt self item w
    = mkStep [] (inr None) (logged w [(search_agent, search_input item)])
  /\ exists results,
       _perform_searches rt self (mkWebSearchPlan (before ++ item :: after)) w
         = mkStep [] (inr results)
             (logged w (search_calls (mkWebSearchPlan (before ++ item :: after))))
       /\ results ≡ₚ omap (search_result rt) (before ++ after)
       /\ forall (query questions_and_responses : string) (report : ReportData)
            (u : unit) (w' : World),
            respond rt planner_agent (input_text query questions_and_responses)
              = inr (mkWebSearchPlan (before ++ item :: after)) ->
            respond rt writer_agent (report_input rt query results) = inr report ->
            respond rt email_agent (markdown_report report) = inr u ->
            yielded (run_with_responses rt self query questions_and_responses w')
              = [ "https://platform.openai.com/traces/trace?trace_id="
                  +:+ gen_trace_id rt;
                  "Starting research with your responses...";
                  "Searches planned, starting to search...";
                  "Searches complete, writing report...";
                  "Report written, sending email...";
                  "Email sent, research complete";
                  markdown_report report ]
            /\ outcome (run_with_responses rt self query questions_and_responses w')
               = inr tt.
Proof.
  intros Horder Hfail. split.
  - rewrite search_step. unfold search_result. rewrite Hfail. reflexivity.
  - exists (search_results rt (mkWebSearchPlan (before ++ item :: after))).
    split; [apply perform_searches_step|]. split.
    + rewrite search_results_permutation by exact Horder.
      cbn [searches]. rewrite !omap_app. cbn [omap list_omap].
      unfold search_result at 2. rewrite Hfail. reflexivity.
    + intros query qr report u w' Hplan Hwrite Hmail.
      rewrite run_with_responses_step.
      rewrite (pipeline_completes self query qr w' _ report u Hplan Hwrite Hmail).
      split; reflexivity.
Qed.

(** C6. When the call to the writer agent raises, [_execute_research]
    returns one string, "Error running research: " followed by the
    message of the exception; the run has called the planner, the search
    agent and the writer and nothing after them, so no report exists to
    be part of the output. *)
Theorem report_failure_is_terminal_error (questions_and_responses : string)
  (w : World) (plan : WebSearchPlan) (e : exn) :
  respond rt planner_agent
    (input_text (current_query (session w)) questions_and_responses)
    = inr plan ->
  respond rt writer_agent
    (report_input rt (current_query (session w)) (search_results rt plan))
    = inl e ->
  _execute_research rt questions_and_responses w
    = mkStep []
        (inr ("Error running research: " +:+ reported_message rt e))
        (logged w
           ([(planner_agent,
              input_text (current_query (session w)) questions_and_responses)]
            ++ search_calls plan
            ++ [(writer_agent,
                 report_input rt (current_query (session w))
                   (search_results rt plan))]))
  /\ exists rest,
       outcome (_execute_research rt questions_and_responses w)
       = inr ("Error running research" +:+ rest).
Proof.
  intros Hplan Hwrite.
  assert (Hrun :
    _execute_research rt questions_and_responses w
    = mkStep []
        (inr ("Error running research: " +:+ reported_message rt e))
        (logged w
           ([(planner_agent,
              input_text (current_query (session w)) questions_and_responses)]
            ++ search_calls plan
            ++ [(writer_agent,
                 report_input rt (current_query (session w))
                   (search_results rt plan))]))).
  { erewrite execute_research_raised; [reflexivity|].
    rewrite run_with_responses_step.
    rewrite (pipeline_writer_raises new_ResearchManager _ _ w plan e Hplan Hwrite).
    reflexivity. }
  split; [exact Hrun|].
  exists (": " +:+ reported_message rt e). rewrite Hrun. reflexivity.
Qed.

End PipelineSteps.

(* ===================================================================== *)
(** ** Consecutive runs *)
(* ===================================================================== *)

Section ConsecutiveRuns.

Import Research.

Variable rt : Runtime.
Variable ids : nat -> string.





End ConsecutiveRuns.

(* ===================================================================== *)
(** ** Properties of the transcripts *)
(* ===================================================================== *)

Section Transcripts.

Import Research.

Lemma lstrip_start (s : string) : starts_with_space (lstrip s) = false.
Proof.
  induction s as [|c s IH]; [done|].
  cbn [lstrip]. destruct (isspace c) eqn:Hc; [exact IH|].
  cbn. exact Hc.
Qed.

Lemma rstrip_end (s : string) : ends_with_space (rstrip s) = false.
Proof.
  induction s as [|c s IH]; [done|].
  cbn [rstrip]. destruct (rstrip s) as [|d kept].
  - destruct (isspace c) eqn:Hc; [done|]. cbn. exact Hc.
  - exact IH.
Qed.

Lemma rstrip_start (s : string) :
  starts_with_space s = false -> starts_with_space (rstrip s) = false.
Proof.
  destruct s as [|c s]; [done|]. cbn [starts_with_space rstrip]. intros Hc.
  destruct (rstrip s); [rewrite Hc|]; cbn; exact Hc.
Qed.

Lemma strip_trimmed (s : string) : trimmed (strip s) = true.
Proof.
  unfold trimmed, strip.
  rewrite rstrip_start by apply lstrip_start. by rewrite rstrip_end.
Qed.

Lemma ask_from_step (questions : list Question) :
  forall (i : nat) (transcript : string) (w : World),
    (length questions <= length (stdin w))%nat ->
    ask_from i questions transcript w
    = mkStep []
        (inr (format_from i
                (zip questions (strip <$> take (length questions) (stdin w)))
                transcript))
        (mkWorld (session w) (drop (length questions) (stdin w)) (calls w)).
Proof.
  induction questions as [|question_item questions IH]; intros i transcript w Hlen.
  - destruct w; reflexivity.
  - destruct w as [s lines_in log]. cbn [stdin] in Hlen.
    destruct lines_in as [|line lines_in]; [cbn in Hlen; lia|].
    cbn [ask_from]. rewrite bind_step. cbn [input stdin outcome yielded world session calls].
    rewrite IH by (cbn in *; lia). reflexivity.
Qed.

(** C7. The two paths that collect answers write the same line of the
    transcript, and each of them enforces one half of the invariant
    only, the half that the other one leaves out. For a question and a
    line of text: the interactive path records the line trimmed and
    goes on, also when nothing is left of the line, an answer that the
    path of the user interface refuses; the path of the user interface,
    when something is left of the line once trimmed, records the line
    as it was given, with the white space that the interactive path
    removes. *)
Theorem collection_paths_disagree (rt : Runtime) (question_item : Question)
  (line query : string) :
  let w := mkWorld (mkSession [question_item] query []) [line] [] in
  _interactive_question_collection new_ResearchManager [question_item] w
    = mkStep [] (inr (transcript_line 1 question_item (strip line)))
        (mkWorld (mkSession [question_item] query []) [] [])
  /\ run_research rt [Some line] w
     = (if truthy (strip line)
        then _execute_research rt (transcript_line 1 question_item line) w
        else mkStep [] (inr (validation_message 1 0)) w)
  /\ outcome (_format_questions_and_responses [Some line] w)
     = inr (if truthy (strip line)
            then transcript_line 1 question_item line
            else "")
  /\ strip "   " = ""
  /\ truthy (strip " 500 ") = true
  /\ trimmed " 500 " = false
  /\ transcript_line 1 (mkQuestion "budget matters" "What is your budget?")
       (strip "   ")
     = "1. What is your budget? - Response: " +:+ LF
  /\ transcript_line 1 (mkQuestion "budget matters" "What is your budget?")
       " 500 "
     = "1. What is your budget? - Response:  500 " +:+ LF.
Proof.
  cbv zeta. split; [reflexivity|]. split; [|split].
  - destruct (truthy (strip line)) eqn:Hkept.
    + rewrite run_research_accepts.
      * cbn [session current_questions]. unfold valid_responses.
        cbn [omap list_omap keep_response]. rewrite Hkept. reflexivity.
      * cbn [session current_questions]. unfold valid_responses.
        cbn [omap list_omap keep_response]. rewrite Hkept. reflexivity.
    + rewrite run_research_rejects.
      * cbn [session current_questions]. unfold valid_responses.
        cbn [omap list_omap keep_response]. rewrite Hkept. reflexivity.
      * cbn [session current_questions]. unfold valid_responses.
        cbn [omap list_omap keep_response]. rewrite Hkept. cbn. lia.
  - unfold _format_questions_and_responses. rewrite bind_step.
    cbn [get_session outcome yielded world session current_questions].
    unfold valid_responses. cbn [omap list_omap keep_response].
    destruct (truthy (strip line)); reflexivity.
  - vm_compute. repeat split.
Qed.

End Transcripts.

(* ===================================================================== *)
(** ** The properties on the scripted runtime *)
(* ===================================================================== *)

Section Examples.

Import Accounts Research.

Lemma run_with_responses_sequence_witness :
  (forall (a : Agent) (prompt : string),
     exists answer, respond (demo_runtime None true true) a prompt = inr answer)
  /\ exists report,
       yielded (run_with_responses (demo_runtime None true true)
                  new_ResearchManager "best budget laptops 2024"
                  demo_transcript demo_world)
       = [ "https://platform.openai.com/traces/trace?trace_id=trace_0123";
           "Starting research with your responses...";
           "Searches planned, starting to search...";
           "Searches complete, writing report...";
           "Report written, sending email...";
           "Email sent, research complete";
           markdown_report report ].
Proof.
  assert (Hok : forall (a : Agent) (prompt : string),
            exists answer, respond (demo_runtime None true true) a prompt = inr answer).
  { intros [] prompt; eexists; reflexivity. }
  split; [exact Hok|].
  destruct (run_with_responses_sequence (demo_runtime None true true)
              new_ResearchManager "best budget laptops 2024" demo_transcript
              demo_world Hok) as (plan & report & _ & _ & Hyields & _).
  exists report. exact Hyields.
Defined.

Lemma email_failure_propagates_witness :
  respond (demo_runtime None true false) email_agent (markdown_report demo_report)
    = inl (mkExn OtherException "SMTP connection refused")
  /\ outcome (_execute_research (demo_runtime None true false) demo_transcript
                demo_world)
     = inr "Error running research: SMTP connection refused".
Proof.
  split; [reflexivity|].
  apply (email_failure_propagates (demo_runtime None true false)
           new_ResearchManager "best budget laptops 2024" demo_transcript
           demo_world demo_plan demo_report
           (mkExn OtherException "SMTP connection refused"));
    reflexivity.
Defined.

(** C2 fails on the code: the report is written, the mailer raises, and
    the run ends with the exception, the report never yielded; the
    caller gets the error text. *)
Lemma email_failure_loses_report :
  respond (demo_runtime None true false) writer_agent
    (report_input (demo_runtime None true false) "best budget laptops 2024"
       (search_results (demo_runtime None true false) demo_plan))
    = inr demo_report
  /\ respond (demo_runtime None true false) email_agent
       (markdown_report demo_report)
     = inl (mkExn OtherException "SMTP connection refused")
  /\ outcome (run_with_responses (demo_runtime None true false)
                new_ResearchManager "best budget laptops 2024"
                demo_transcript demo_world)
     = inl (mkExn OtherException "SMTP connection refused")
  /\ last (yielded (run_with_responses (demo_runtime None true false)
                      new_ResearchManager "best budget laptops 2024"
                      demo_transcript demo_world))
     = Some "Report written, sending email..."
  /\ last (yielded (run_with_responses (demo_runtime None true false)
                      new_ResearchManager "best budget laptops 2024"
                      demo_transcript demo_world))
     <> Some (markdown_report demo_report)
  /\ outcome (_execute_research (demo_runtime None true false) demo_transcript
                demo_world)
     = inr "Error running research: SMTP connection refused".
Proof. vm_compute. repeat split; discriminate. Qed.

Lemma run_research_validation_witness :
  length (valid_responses [Some "500"; Some "   "; Some "14 inch"])
    <> length (current_questions (session demo_world))
  /\ outcome (run_research (demo_runtime None true true)
                [Some "500"; Some "   "; Some "14 inch"] demo_world)
     = inr "Please provide answers for all 3 questions. You provided 2 answers."
  /\ world (run_research (demo_runtime None true true)
              [Some "500"; Some "   "; Some "14 inch"] demo_world)
     = demo_world.
Proof.
  assert (Hcount :
    length (valid_responses [Some "500"; Some "   "; Some "14 inch"])
    <> length (current_questions (session demo_world))).
  { vm_compute. lia. }
  split; [exact Hcount|].
  destruct (run_research_validation (demo_runtime None true true)
              [Some "500"; Some "   "; Some "14 inch"] demo_world Hcount)
    as (Hout & _ & Hworld).
  split; [exact Hout | exact Hworld].
Defined.

Lemma perform_searches_count_witness :
  every_task_completes (demo_runtime (Some "laptop reviews 2024") true true)
    (length (searches demo_plan))
  /\ exists results,
       outcome (_perform_searches
                  (demo_runtime (Some "laptop reviews 2024") true true)
                  new_ResearchManager demo_plan demo_world)
       = inr results
       /\ length results = 2%nat
       /\ (length results <= 3)%nat.
Proof.
  assert (Horder :
    every_task_completes (demo_runtime (Some "laptop reviews 2024") true true)
      (length (searches demo_plan))).
  { unfold every_task_completes. cbn. symmetry.
    apply (Permutation_rev [0; 1; 2]%nat). }
  split; [exact Horder|].
  exact (perform_searches_count
           (demo_runtime (Some "laptop reviews 2024") true true)
           new_ResearchManager demo_plan demo_world Horder).
Defined.

Lemma failed_search_is_isolated_witness :
  respond (demo_runtime (Some "laptop reviews 2024") true true) search_agent
    (search_input (mkWebSearchItem "reviews" "laptop reviews 2024"))
    = inl (mkExn OtherException "search timed out")
  /\ exists results,
       outcome (_perform_searches
                  (demo_runtime (Some "laptop reviews 2024") true true)
                  new_ResearchManager demo_plan demo_world)
       = inr results
       /\ results
          ≡ₚ omap (search_result
                     (demo_runtime (Some "laptop reviews 2024") true true))
               [ mkWebSearchItem "prices" "budget laptops under 500";
                 mkWebSearchItem "screens" "14 inch laptops" ].
Proof.
  split; [reflexivity|].
  assert (Horder :
    every_task_completes (demo_runtime (Some "laptop reviews 2024") true true)
      (length ([mkWebSearchItem "prices" "budget laptops under 500"]
               ++ mkWebSearchItem "reviews" "laptop reviews 2024"
                  :: [mkWebSearchItem "screens" "14 inch laptops"]))).
  { unfold every_task_completes. cbn. symmetry.
    apply (Permutation_rev [0; 1; 2]%nat). }
  destruct (failed_search_is_isolated
              (demo_runtime (Some "laptop reviews 2024") true true)
              new_ResearchManager
              [mkWebSearchItem "prices" "budget laptops under 500"]
              [mkWebSearchItem "screens" "14 inch laptops"]
              (mkWebSearchItem "reviews" "laptop reviews 2024")
              demo_world (mkExn OtherException "search timed out")
              Horder eq_refl)
    as (_ & results & Hrun & Hperm & _).
  exists results. split; [|exact Hperm].
  change demo_plan
    with (mkWebSearchPlan
            ([mkWebSearchItem "prices" "budget laptops under 500"]
             ++ mkWebSearchItem "reviews" "laptop reviews 2024"
                :: [mkWebSearchItem "screens" "14 inch laptops"])).
  rewrite Hrun. reflexivity.
Defined.

Lemma report_failure_is_terminal_error_witness :
  respond (demo_runtime None false true) writer_agent
    (report_input (demo_runtime None false true)
       (current_query (session demo_world))
       (search_results (demo_runtime None false true) demo_plan))
    = inl (mkExn OtherException "writer unavailable")
  /\ outcome (_execute_research (demo_runtime None false true) demo_transcript
                demo_world)
     = inr "Error running research: writer unavailable".
Proof.
  split; [reflexivity|].
  destruct (report_failure_is_terminal_error (demo_runtime None false true)
              demo_transcript demo_world demo_plan
              (mkExn OtherException "writer unavailable") eq_refl eq_refl)
    as (Hrun & _).
  rewrite Hrun. reflexivity.
Defined.



Lemma buy_unlisted_symbol_witness :
  "MSFT" <> "AAPL" /\ "MSFT" <> "TSLA" /\ "MSFT" <> "GOOGL"
  /\ fits_float 4 = true
  /\ (0 <= balance (new_account "user123" (1000 # 1)))%Q
  /\ get_share_price "MSFT" = 0 # 1
  /\ exists self',
       buy_shares_call (new_account "user123" (1000 # 1)) "MSFT" 4
       = (Some true, self')
       /\ balance self' = 1000 # 1
       /\ holdings self' !! "MSFT" = Some 4
       /\ calculate_portfolio_value_call self' = Some (1000 # 1).
Proof.
  assert (H1 : "MSFT" <> "AAPL") by discriminate.
  assert (H2 : "MSFT" <> "TSLA") by discriminate.
  assert (H3 : "MSFT" <> "GOOGL") by discriminate.
  assert (Hfits : fits_float 4 = true) by (vm_compute; reflexivity).
  assert (Hbal : (0 <= balance (new_account "user123" (1000 # 1)))%Q)
    by discriminate.
  destruct (buy_unlisted_symbol (new_account "user123" (1000 # 1)) "MSFT" 4
              H1 H2 H3) as (Hprice & _ & Hbuy & _).
  destruct (Hbuy Hfits Hbal) as (self' & Hrun & Hbalance & Hheld & _ & Hvalue).
  repeat (split; [assumption|]).
  exists self'. repeat (split; [assumption|]).
  rewrite (Hvalue (1000 # 1)); [|vm_compute; reflexivity].
  vm_compute. reflexivity.
Defined.

(** C10 fails on the code in two ways. When the balance is negative the
    free purchase is refused; and a quantity that does not convert to a
    [float], like [10 ** 400], makes the call raise [OverflowError]
    whatever the balance is. *)
Lemma buy_unlisted_symbol_refused :
  get_share_price "MSFT" = 0 # 1
  /\ balance (new_account "user123" (-50 # 1)) = -50 # 1
  /\ buy_shares_call (new_account "user123" (-50 # 1)) "MSFT" 4
     = (Some false, new_account "user123" (-50 # 1))
  /\ buy_shares_call (new_account "user123" (1000 # 1)) "MSFT" (10 ^ 400)
     = (None, new_account "user123" (1000 # 1)).
Proof. vm_compute. repeat split. Qed.

End Examples.

(* ===================================================================== *)
(** ** Further properties of the trading account *)
(* ===================================================================== *)

Section AccountInvariants.

Import Accounts.

Lemma get_share_price_nonneg (symbol : string) : (0 <= get_share_price symbol)%Q.
Proof.
  unfold get_share_price.
  repeat (destruct (String.eqb symbol _)); discriminate.
Qed.

(** X3. A [withdraw] or a [buy_shares] that returns [True] leaves a
    balance that is not negative, whatever the balance was before. *)
Theorem successful_debit_leaves_funds (self : Account) (amount : Q)
  (symbol : string) (quantity : Z) :
  match withdraw self amount with
  | (true, self') => (0 <= balance self')%Q
  | (false, _) => True
  end
  /\ match buy_shares self symbol quantity with
     | (true, self') => (0 <= balance self')%Q
     | (false, _) => True
     end.
Proof.
  split.
  - unfold withdraw, Qgtb.
    destruct (Qle_bool amount (balance self)) eqn:Hle; cbn [negb]; [|exact I].
    cbn [balance]. apply Qle_bool_iff in Hle.
    unfold Qminus. exact (proj1 (Qle_minus_iff _ _) Hle).
  - unfold buy_shares, Qgtb. cbv zeta.
    destruct (Qle_bool _ (balance self)) eqn:Hle; cbn [negb]; [|exact I].
    cbn [balance]. apply Qle_bool_iff in Hle.
    unfold Qminus. exact (proj1 (Qle_minus_iff _ _) Hle).
Qed.

Lemma perform_keeps_balance (self : Account) (op : Operation) :
  (0 <= balance self)%Q -> in_slider_range op -> (0 <= balance (perform self op))%Q.
Proof.
  intros Hbal Hop.
  destruct op as [amount|amount|symbol quantity|symbol quantity];
    cbn [perform in_slider_range] in *.
  - cbn [deposit balance].
    apply (Qplus_le_compat 0 (balance self) 0 amount); assumption.
  - unfold withdraw, Qgtb.
    destruct (Qle_bool amount (balance self)) eqn:Hle; cbn [negb snd]; [|exact Hbal].
    cbn [balance]. apply Qle_bool_iff in Hle.
    unfold Qminus. exact (proj1 (Qle_minus_iff _ _) Hle).
  - unfold buy_shares, Qgtb. cbv zeta.
    destruct (Qle_bool _ (balance self)) eqn:Hle; cbn [negb snd]; [|exact Hbal].
    cbn [balance]. apply Qle_bool_iff in Hle.
    unfold Qminus. exact (proj1 (Qle_minus_iff _ _) Hle).
  - unfold sell_shares. destruct (holdings self !! symbol) as [held|];
      [|exact Hbal].
    destruct (held <? quantity); [exact Hbal|]. cbn [snd balance].
    apply (Qplus_le_compat 0 (balance self) 0 _); [exact Hbal|].
    apply Qmult_le_0_compat; [apply get_share_price_nonneg|].
    unfold Qle; cbn. lia.
Qed.

(** X4. From a balance that is not negative, no sequence of calls with
    arguments in the range of the sliders of app.py makes the balance
    negative. *)
Theorem slider_operations_keep_balance (self : Account) (ops : list Operation) :
  (0 <= balance self)%Q ->
  Forall in_slider_range ops ->
  (0 <= balance (perform_all self ops))%Q.
Proof.
  intros Hbal Hops. revert self Hbal.
  induction Hops as [|op ops Hop _ IH]; intros self Hbal; [exact Hbal|].
  cbn [perform_all fold_left]. apply IH. by apply perform_keeps_balance.
Qed.

Lemma perform_keeps_holdings (self : Account) (op : Operation) :
  positive_holdings self -> in_slider_range op ->
  positive_holdings (perform self op).
Proof.
  unfold positive_holdings. intros Hpos Hop.
  destruct op as [amount|amount|symbol quantity|symbol quantity];
    cbn [perform in_slider_range] in *.
  - exact Hpos.
  - unfold withdraw. destruct (Qgtb _ _); exact Hpos.
  - unfold buy_shares. cbv zeta. destruct (Qgtb _ _); [exact Hpos|].
    cbn [snd holdings].
    destruct (holdings self !! symbol) as [held|] eqn:Hheld.
    + apply map_Forall_insert_2; [|exact Hpos].
      specialize (Hpos symbol held Hheld). cbn in Hpos. lia.
    + apply map_Forall_insert_2; [lia | exact Hpos].
  - unfold sell_shares.
    destruct (holdings self !! symbol) as [held|] eqn:Hheld; [|exact Hpos].
    destruct (held <? quantity) eqn:Hlt; [exact Hpos|].
    apply Z.ltb_ge in Hlt. cbn [snd holdings].
    destruct (held - quantity =? 0) eqn:Hrest.
    + by apply map_Forall_delete.
    + apply Z.eqb_neq in Hrest.
      apply map_Forall_insert_2; [lia | exact Hpos].
Qed.

(** X5. The holdings never list a symbol with a quantity of zero or
    less: true of a new account, this stays true along every sequence of
    calls with arguments in the range of the sliders of app.py. *)
Theorem slider_operations_keep_holdings_positive (self : Account)
  (ops : list Operation) :
  positive_holdings self ->
  Forall in_slider_range ops ->
  positive_holdings (perform_all self ops).
Proof.
  intros Hpos Hops. revert self Hpos.
  induction Hops as [|op ops Hop _ IH]; intros self Hpos; [exact Hpos|].
  cbn [perform_all fold_left]. apply IH. by apply perform_keeps_holdings.
Qed.

(** X6. Selling at once what was just bought is accepted and restores
    the holdings: when a call of [buy_shares] returns [True] on an
    account with positive holdings, the call of [sell_shares] of the
    same symbol and quantity returns [True] too, the holdings are those
    before the purchase, and both calls are on record with the price
    of the symbol. *)
Theorem buy_then_sell_round_trip (self bought : Account) (symbol : string)
  (quantity : Z) :
  positive_holdings self ->
  buy_shares_call self symbol quantity = (Some true, bought) ->
  exists sold,
    sell_shares_call bought symbol quantity = (Some true, sold)
    /\ holdings sold = holdings self
    /\ transactions sold
       = transactions self
         ++ [ TxBuy symbol quantity (get_share_price symbol);
              TxSell symbol quantity (get_share_price symbol) ].
Proof.
  unfold positive_holdings. intros Hpos.
  unfold buy_shares_call. destruct (fits_float quantity) eqn:Hfits;
    [|discriminate].
  unfold buy_shares. cbv zeta.
  destruct (Qgtb _ (balance self)); [discriminate|].
  cbn [fst snd]. intros Hbought. injection Hbought as <-.
  unfold sell_shares_call, sell_shares.
  cbn [holdings balance transactions].
  destruct (holdings self !! symbol) as [held|] eqn:Hheld.
  - specialize (Hpos symbol held Hheld). cbn in Hpos.
    rewrite lookup_insert_eq.
    assert (Hlt : (held + quantity <? quantity) = false)
      by (apply Z.ltb_ge; lia).
    rewrite Hlt, Hfits.
    assert (Hrest : (held + quantity - quantity =? 0) = false)
      by (apply Z.eqb_neq; lia).
    rewrite Hrest. cbn [fst snd]. eexists. split; [reflexivity|].
    cbn [holdings transactions]. split.
    + rewrite insert_insert_eq.
      replace (held + quantity - quantity) with held by lia.
      by apply insert_id.
    + by rewrite <- app_assoc.
  - rewrite lookup_insert_eq. rewrite Z.ltb_irrefl, Hfits.
    rewrite Z.sub_diag. cbn [Z.eqb fst snd].
    eexists. split; [reflexivity|].
    cbn [holdings transactions]. split.
    + by apply delete_insert_id.
    + by rewrite <- app_assoc.
Qed.

Lemma perform_appends (self : Account) (op : Operation) :
  exists later,
    transactions (perform self op) = transactions self ++ later
    /\ (length later <= 1)%nat.
Proof.
  destruct op as [amount|amount|symbol quantity|symbol quantity];
    cbn [perform].
  - eexists; split; [reflexivity|]. cbn; lia.
  - unfold withdraw. destruct (Qgtb _ _); cbn [snd transactions].
    + exists []. by rewrite app_nil_r; cbn; split; [|lia].
    + eexists; split; [reflexivity|]. cbn; lia.
  - unfold buy_shares. cbv zeta. destruct (Qgtb _ _); cbn [snd transactions].
    + exists []. by rewrite app_nil_r; cbn; split; [|lia].
    + eexists; split; [reflexivity|]. cbn; lia.
  - unfold sell_shares. destruct (holdings self !! symbol) as [held|].
    + destruct (held <? quantity); cbn [snd transactions].
      * exists []. by rewrite app_nil_r; cbn; split; [|lia].
      * eexists; split; [reflexivity|]. cbn; lia.
    + exists []. by rewrite app_nil_r; cbn; split; [|lia].
Qed.

(** X7. The record of transactions only grows, by at most one entry per
    call; so the record of an account always starts with its initial
    deposit and is never empty. *)
Theorem transactions_only_grow (self : Account) (ops : list Operation) :
  (exists later,
     transactions (perform_all self ops) = transactions self ++ later
     /\ (length later <= length ops)%nat)
  /\ forall (id : string) (deposit0 : Q),
       exists later,
         transactions (perform_all (new_account id deposit0) ops)
         = TxDeposit deposit0 :: later.
Proof.
  assert (Hgrow : forall a : Account, exists later,
            transactions (perform_all a ops) = transactions a ++ later
            /\ (length later <= length ops)%nat).
  { induction ops as [|op ops IH]; intros a.
    - exists []. by rewrite app_nil_r; cbn; split; [|lia].
    - cbn [perform_all fold_left]. fold (perform_all (perform a op) ops).
      destruct (IH (perform a op)) as (later & Hlater & Hlen).
      destruct (perform_appends a op) as (one & Hone & Hone_len).
      exists (one ++ later). rewrite Hlater, Hone, <- app_assoc.
      split; [reflexivity|]. rewrite length_app. cbn [length]. lia. }
  split; [apply Hgrow|].
  intros id deposit0. destruct (Hgrow (new_account id deposit0)) as (later & -> & _).
  by exists later.
Qed.

(** X26. The account does not refuse amounts or quantities below zero.
    On a balance that is not negative, a [withdraw] of a negative amount
    returns [True] and does not lower the balance, and a call of
    [buy_shares] with a negative quantity that converts to a [float]
    returns [True], does not lower the balance, and lowers the holding
    of the symbol below what it was. *)
Theorem negative_arguments_are_accepted (self : Account) (amount : Q)
  (symbol : string) (quantity : Z) :
  (0 <= balance self)%Q ->
  ((amount < 0)%Q ->
   exists self',
     withdraw self amount = (true, self')
     /\ (balance self <= balance self')%Q)
  /\ (quantity < 0 -> fits_float quantity = true ->
      exists self',
        buy_shares_call self symbol quantity = (Some true, self')
        /\ (balance self <= balance self')%Q
        /\ holdings self' !! symbol
           = Some (default 0 (holdings self !! symbol) + quantity)
        /\ default 0 (holdings self' !! symbol)
           < default 0 (holdings self !! symbol)).
Proof.
  intros Hbal. split.
  - intros Hneg. unfold withdraw, Qgtb.
    assert (Hle : Qle_bool amount (balance self) = true).
    { apply Qle_bool_iff. apply Qlt_le_weak. eapply Qlt_le_trans; eassumption. }
    rewrite Hle. cbn [negb]. eexists. split; [reflexivity|]. cbn [balance].
    unfold Qminus.
    rewrite <- (Qplus_0_r (balance self)) at 1.
    apply Qplus_le_r. apply Qlt_le_weak.
    apply (Qopp_lt_compat amount 0) in Hneg. exact Hneg.
  - intros Hneg Hfits. unfold buy_shares_call. rewrite Hfits.
    unfold buy_shares, Qgtb. cbv zeta.
    assert (Hcost : (get_share_price symbol * inject_Z quantity <= 0)%Q).
    { pose proof (get_share_price_nonneg symbol) as Hprice.
      destruct (get_share_price symbol) as [pn pd].
      unfold Qle in *; cbn in *. nia. }
    assert (Hle : Qle_bool (get_share_price symbol * inject_Z quantity)
                    (balance self) = true).
    { apply Qle_bool_iff. eapply Qle_trans; eassumption. }
    rewrite Hle. cbn [negb fst snd]. eexists. split; [reflexivity|].
    cbn [balance holdings]. split; [|split].
    + unfold Qminus. rewrite <- (Qplus_0_r (balance self)) at 1.
      apply Qplus_le_r.
      apply (Qopp_le_compat _ 0) in Hcost. exact Hcost.
    + destruct (holdings self !! symbol) as [held|];
        cbn [default]; by rewrite lookup_insert_eq.
    + destruct (holdings self !! symbol) as [held|];
        rewrite lookup_insert_eq; cbn; lia.
Qed.

End AccountInvariants.

(* ===================================================================== *)
(** ** Further properties of the research pipeline *)
(* ===================================================================== *)

Section PipelineEdges.

Import Research.

Variable rt : Runtime.

Lemma collect_results_step (self : ResearchManager) (query : string) (w : World) :
  _collect_user_insights rt self query w
  = match respond rt product_manager_agent ("Query: " +:+ query) with
    | inl e =>
        mkStep [] (inl e) (logged w [(product_manager_agent, "Query: " +:+ query)])
    | inr result =>
        _interactive_question_collection self (q_searches result)
          (logged w [(product_manager_agent, "Query: " +:+ query)])
    end.
Proof.
  unfold _collect_user_insights. rewrite bind_step. unfold Runner_run.
  cbn [outcome yielded world].
  destruct (respond rt product_manager_agent ("Query: " +:+ query)) as [e|result];
    [reflexivity|].
  fold (logged w [(product_manager_agent, "Query: " +:+ query)]).
  destruct (_interactive_question_collection self (q_searches result) _);
    reflexivity.
Qed.

Lemma run_step (self : ResearchManager) (query : string) (w : World) :
  run rt self query w
  = match outcome (_collect_user_insights rt self query w) with
    | inl e =>
        mkStep
          (_get_trace_url (gen_trace_id rt)
           :: yielded (_collect_user_insights rt self query w))
          (inl e)
          (world (_collect_user_insights rt self query w))
    | inr transcript =>
        mkStep
          (_get_trace_url (gen_trace_id rt)
           :: yielded (_collect_user_insights rt self query w)
              ++ yielded (_execute_research_pipeline rt self query transcript
                            (world (_collect_user_insights rt self query w))))
          (outcome (_execute_research_pipeline rt self query transcript
                      (world (_collect_user_insights rt self query w))))
          (world (_execute_research_pipeline rt self query transcript
                    (world (_collect_user_insights rt self query w))))
    end.
Proof.
  unfold run. rewrite bind_step. cbn [yield outcome yielded world].
  rewrite bind_step.
  destruct (outcome (_collect_user_insights rt self query w)); reflexivity.
Qed.

(** Reading stops at the end of the input. *)
Lemma ask_from_eof (questions : list Question) :
  forall (i : nat) (transcript : string) (w : World),
    (length (stdin w) < length questions)%nat ->
    ask_from i questions transcript w
    = mkStep [] (inl (mkExn EOFError "EOF when reading a line"))
        (mkWorld (session w) [] (calls w)).
Proof.
  induction questions as [|question_item questions IH];
    intros i transcript [s lines_in log] Hlen; cbn [stdin] in Hlen.
  - cbn in Hlen. lia.
  - cbn [ask_from]. rewrite bind_step.
    destruct lines_in as [|line lines_in]; [reflexivity|].
    cbn [input stdin outcome yielded world session calls].
    rewrite IH by (cbn in *; lia). reflexivity.
Qed.


(** X8. The interactive entry point [run], when the question agent
    answers, the input holds a line for every question and the planner,
    the writer and the mailer answer: it yields the trace URL, the four
    progress messages of the pipeline and the report (and no "Starting
    research" message), reads exactly one line per question, and hands
    the planner the transcript of the trimmed lines. *)
Theorem run_interactive_sequence (self : ResearchManager) (query : string)
  (w : World) (result : Questions) (plan : WebSearchPlan)
  (report : ReportData) (u : unit) :
  respond rt product_manager_agent ("Query: " +:+ query) = inr result ->
  (length (q_searches result) <= length (stdin w))%nat ->
  respond rt planner_agent
    (input_text query
       (format_from 1
          (zip (q_searches result)
             (strip <$> take (length (q_searches result)) (stdin w))) ""))
    = inr plan ->
  respond rt writer_agent (report_input rt query (search_results rt plan))
    = inr report ->
  respond rt email_agent (markdown_report report) = inr u ->
  run rt self query w
  = mkStep
      [ "https://platform.openai.com/traces/trace?trace_id=" +:+ gen_trace_id rt;
        "Searches planned, starting to search...";
        "Searches complete, writing report...";
        "Report written, sending email...";
        "Email sent, research complete";
        markdown_report report ]
      (inr tt)
      (mkWorld (session w)
         (drop (length (q_searches result)) (stdin w))
         (calls w
          ++ [ (product_manager_agent, "Query: " +:+ query);
               (planner_agent,
                input_text query
                  (format_from 1
                     (zip (q_searches result)
                        (strip <$> take (length (q_searches result)) (stdin w)))
                     "")) ]
          ++ search_calls plan
          ++ [ (writer_agent, report_input rt query (search_results rt plan));
               (email_agent, markdown_report report) ])).
Proof.
  intros Hask Hlines Hplan Hwrite Hmail.
  rewrite run_step, collect_results_step, Hask.
  unfold _interactive_question_collection.
  rewrite ask_from_step by exact Hlines.
  cbn [outcome yielded world logged stdin session calls].
  rewrite (pipeline_completes rt self query _ _ plan report u Hplan Hwrite Hmail).
  cbn [outcome yielded world logged stdin session calls app].
  unfold logged. cbn [session stdin calls]. rewrite <- app_assoc. reflexivity.
Qed.

(** X9. [run] when the input ends before every question is answered:
    [input] raises [EOFError], which leaves [run] after the trace URL
    alone has been yielded; the question agent is the only agent
    called, and the lines that were there have been read. *)
Theorem run_stops_at_end_of_input (self : ResearchManager) (query : string)
  (w : World) (result : Questions) :
  respond rt product_manager_agent ("Query: " +:+ query) = inr result ->
  (length (stdin w) < length (q_searches result))%nat ->
  run rt self query w
  = mkStep
      [ "https://platform.openai.com/traces/trace?trace_id=" +:+ gen_trace_id rt ]
      (inl (mkExn EOFError "EOF when reading a line"))
      (mkWorld (session w) []
         (calls w ++ [(product_manager_agent, "Query: " +:+ query)])).
Proof.
  intros Hask Hlines.
  rewrite run_step, collect_results_step, Hask.
  unfold _interactive_question_collection.
  rewrite ask_from_eof by exact Hlines. reflexivity.
Qed.

(** X10. [run] when the question agent raises: the exception leaves
    [run] after the trace URL alone has been yielded; nothing is read
    from the input and no other agent is called. *)
Theorem run_stops_without_questions (self : ResearchManager) (query : string)
  (w : World) (e : exn) :
  respond rt product_manager_agent ("Query: " +:+ query) = inl e ->
  run rt self query w
  = mkStep
      [ "https://platform.openai.com/traces/trace?trace_id=" +:+ gen_trace_id rt ]
      (inl e)
      (mkWorld (session w) (stdin w)
         (calls w ++ [(product_manager_agent, "Query: " +:+ query)])).
Proof.
  intros Hask. rewrite run_step, collect_results_step, Hask. reflexivity.
Qed.

(** X11. When the planner raises, the run stops there: the generator
    has yielded the trace URL and the starting message only, no search,
    writer or mailer call is made, and [_execute_research] returns the
    error text. *)
Theorem planner_failure_stops_run (self : ResearchManager)
  (questions_and_responses : string) (w : World) (e : exn) :
  respond rt planner_agent
    (input_text (current_query (session w)) questions_and_responses)
    = inl e ->
  run_with_responses rt self (current_query (session w))
    questions_and_responses w
  = mkStep
      [ "https://platform.openai.com/traces/trace?trace_id=" +:+ gen_trace_id rt;
        "Starting research with your responses..." ]
      (inl e)
      (logged w
         [(planner_agent,
           input_text (current_query (session w)) questions_and_responses)])
  /\ _execute_research rt questions_and_responses w
     = mkStep []
         (inr ("Error running research: " +:+ reported_message rt e))
         (logged w
            [(planner_agent,
              input_text (current_query (session w)) questions_and_responses)]).
Proof.
  intros Hplan.
  assert (Hrun : forall self' : ResearchManager,
    run_with_responses rt self' (current_query (session w))
      questions_and_responses w
    = mkStep
        [ "https://platform.openai.com/traces/trace?trace_id=" +:+ gen_trace_id rt;
          "Starting research with your responses..." ]
        (inl e)
        (logged w
           [(planner_agent,
             input_text (current_query (session w)) questions_and_responses)])).
  { intros self'. rewrite run_with_responses_step.
    rewrite (pipeline_planner_raises rt self' _ _ w e Hplan). reflexivity. }
  split; [apply Hrun|].
  erewrite execute_research_raised; [reflexivity | apply Hrun].
Qed.

Lemma collect_nothing (finished : list (option string)) (order : list nat) :
  Forall (fun returned => returned = None) finished ->
  collect_completed finished order [] = [].
Proof.
  intros Hnone. rewrite collect_completed_omap. cbn [app].
  induction order as [|i order IH]; [reflexivity|].
  cbn. destruct (finished !! i) as [returned|] eqn:Hi; cbn; [|exact IH].
  rewrite Forall_forall in Hnone.
  rewrite (Hnone returned) by (by eapply list_elem_of_lookup_2).
  exact IH.
Qed.

(** X12. When no search succeeds (the plan is empty, or every call to
    the search agent raises), the run goes on all the same: the writer
    is called with an empty list of results, and its report is sent and
    yielded as usual. *)
Theorem run_without_search_results (self : ResearchManager)
  (query questions_and_responses : string) (w : World) (plan : WebSearchPlan)
  (report : ReportData) (u : unit) :
  Forall (fun item => search_succeeds rt item = false) (searches plan) ->
  respond rt planner_agent (input_text query questions_and_responses)
    = inr plan ->
  respond rt writer_agent (report_input rt query []) = inr report ->
  respond rt email_agent (markdown_report report) = inr u ->
  outcome (_perform_searches rt self plan w) = inr []
  /\ run_with_responses rt self query questions_and_responses w
     = mkStep
         [ "https://platform.openai.com/traces/trace?trace_id=" +:+ gen_trace_id rt;
           "Starting research with your responses...";
           "Searches planned, starting to search...";
           "Searches complete, writing report...";
           "Report written, sending email...";
           "Email sent, research complete";
           markdown_report report ]
         (inr tt)
         (logged w
            ([(planner_agent, input_text query questions_and_responses)]
             ++ search_calls plan
             ++ [ (writer_agent, report_input rt query []);
                  (email_agent, markdown_report report) ])).
Proof.
  intros Hfail Hplan Hwrite Hmail.
  assert (Hnone : search_results rt plan = []).
  { unfold search_results. apply collect_nothing.
    apply Forall_fmap. eapply Forall_impl; [exact Hfail|].
    intros item. unfold search_succeeds, search_result. cbn.
    by destruct (respond rt search_agent (search_input item)). }
  split.
  - rewrite perform_searches_step. cbn [outcome]. by rewrite Hnone.
  - rewrite run_with_responses_step.
    rewrite <- Hnone in Hwrite.
    rewrite (pipeline_completes rt self query _ w plan report u Hplan Hwrite Hmail).
    rewrite Hnone. reflexivity.
Qed.

(** X13. The results of [_perform_searches] are listed in the order in
    which the tasks complete, not in the order of the plan: they are the
    results of the tasks that did not fail, taken along the order of
    completion. When the tasks complete in the order of dispatch, this
    is the order of the plan. *)
Theorem results_in_completion_order (self : ResearchManager)
  (plan : WebSearchPlan) (w : World) :
  outcome (_perform_searches rt self plan w)
    = inr (omap (fun i => searches plan !! i ≫= search_result rt)
             (completion_order rt (length (searches plan))))
  /\ (completion_order rt (length (searches plan))
        = seq 0 (length (searches plan)) ->
      outcome (_perform_searches rt self plan w)
        = inr (omap (search_result rt) (searches plan))).
Proof.
  rewrite perform_searches_step. cbn [outcome]. unfold search_results.
  rewrite collect_completed_omap. cbn [app].
  assert (Hat : forall i : nat,
            default None ((search_result rt <$> searches plan) !! i)
            = searches plan !! i ≫= search_result rt).
  { intros i. rewrite list_lookup_fmap.
    by destruct (searches plan !! i). }
  split.
  - f_equal. induction (completion_order rt (length (searches plan)))
      as [|i order IH]; [reflexivity|].
    cbn [omap list_omap]. rewrite Hat, IH. reflexivity.
  - intros ->. f_equal.
    rewrite <- (length_fmap (search_result rt) (searches plan)).
    rewrite omap_positions. clear Hat.
    induction (searches plan) as [|item items IH]; [reflexivity|].
    cbn. rewrite IH. reflexivity.
Qed.

(** X14. [run_research] always returns a text and never raises,
    whatever the agents do; it yields nothing, leaves the session and
    the input as they were, and only adds to the log of calls. *)
Theorem run_research_always_answers (responses : list (option string))
  (w : World) :
  exists (text : string) (new_calls : list (Agent * string)),
    run_research rt responses w = mkStep [] (inr text) (logged w new_calls).
Proof.
  destruct w as [s lines_in log].
  destruct (run_research_frame rt responses s) as (text & new_calls & Hrun).
  exists text, new_calls. apply Hrun.
Qed.

Lemma append_assoc (s1 s2 s3 : string) :
  (s1 +:+ s2) +:+ s3 = s1 +:+ (s2 +:+ s3).
Proof.
  induction s1 as [|c s1 IH]; [reflexivity|].
  change (String c ((s1 +:+ s2) +:+ s3) = String c (s1 +:+ s2 +:+ s3)).
  by rewrite IH.
Qed.

Lemma append_empty_r (s : string) : s +:+ "" = s.
Proof.
  induction s as [|c s IH]; [reflexivity|].
  change (String c (s +:+ "") = String c s). by rewrite IH.
Qed.

Lemma concat_empty_cons (s : string) (rest : list string) :
  String.concat "" (s :: rest) = s +:+ String.concat "" rest.
Proof.
  destruct rest as [|s' rest]; cbn [String.concat].
  - by rewrite append_empty_r.
  - reflexivity.
Qed.

(** The text accumulated chunk by chunk is the chunks, each with its
    empty line, one after the other. *)
Lemma joined_concat (chunks : list string) :
  joined chunks
  = String.concat "" (map (fun chunk => chunk +:+ LF +:+ LF) chunks).
Proof.
  unfold joined.
  assert (Hacc : forall acc : string,
    fold_left (fun result chunk => result +:+ chunk +:+ LF +:+ LF) chunks acc
    = acc +:+ String.concat "" (map (fun chunk => chunk +:+ LF +:+ LF) chunks)).
  { induction chunks as [|chunk chunks IH]; intros acc.
    - cbn. by rewrite append_empty_r.
    - cbn [fold_left map]. rewrite IH, concat_empty_cons. cbv beta.
      rewrite append_assoc. reflexivity. }
  apply Hacc.
Qed.

(** X15. When the planner, the writer and the mailer answer,
    [_execute_research] returns the seven chunks of the run, the report
    last, each followed by an empty line. *)
Theorem execute_research_text (questions_and_responses : string) (w : World)
  (plan : WebSearchPlan) (report : ReportData) (u : unit) :
  respond rt planner_agent
    (input_text (current_query (session w)) questions_and_responses)
    = inr plan ->
  respond rt writer_agent
    (report_input rt (current_query (session w)) (search_results rt plan))
    = inr report ->
  respond rt email_agent (markdown_report report) = inr u ->
  outcome (_execute_research rt questions_and_responses w)
  = inr (String.concat ""
           (map (fun chunk => chunk +:+ LF +:+ LF)
              [ "https://platform.openai.com/traces/trace?trace_id="
                +:+ gen_trace_id rt;
                "Starting research with your responses...";
                "Searches planned, starting to search...";
                "Searches complete, writing report...";
                "Report written, sending email...";
                "Email sent, research complete";
                markdown_report report ])).
Proof.
  intros Hplan Hwrite Hmail.
  erewrite execute_research_returned.
  2:{ rewrite run_with_responses_step.
      rewrite (pipeline_completes rt new_ResearchManager _ _ w plan report u
                 Hplan Hwrite Hmail).
      reflexivity. }
  cbn [outcome]. f_equal. apply joined_concat.
Qed.

End PipelineEdges.

(* ===================================================================== *)
(** ** Properties of the functions behind the interface *)
(* ===================================================================== *)

Section InterfaceEdges.

Import Research.

Variable rt : Runtime.

Lemma response_components_from (questions : list Question) :
  forall (i : nat) (acc : list Component),
    (fix loop (i : nat) (questions : list Question)
       (response_components : list Component) :=
       match questions with
       | [] => response_components
       | question_item :: rest =>
           loop (S i) rest
             (response_components
              ++ [{| label :=
                       "Question " +:+ str_int i +:+ ": " +:+ q_question question_item;
                     placeholder := _create_placeholder_text (q_question question_item);
                     lines := 2 |}])
       end) i questions acc
    = acc
      ++ imap (fun j question_item =>
                 {| label :=
                      "Question " +:+ str_int (i + j) +:+ ": "
                      +:+ q_question question_item;
                    placeholder := _create_placeholder_text (q_question question_item);
                    lines := 2 |})
           questions.
Proof.
  induction questions as [|question_item questions IH]; intros i acc.
  - cbn. by rewrite app_nil_r.
  - rewrite IH. cbn [imap]. rewrite <- app_assoc. cbn [app].
    rewrite Nat.add_0_r. do 2 f_equal.
    apply imap_ext. intros j q _. cbn. by rewrite Nat.add_succ_r.
Qed.

(** X17. [_create_response_components] describes one answer box per
    question, in the order of the questions: the box of the question at
    position [i] (counting from 0) is labelled "Question i+1: " and the
    question, has the placeholder of the question, and two lines. *)
Theorem response_components_by_question (questions : list Question) :
  _create_response_components questions
  = imap (fun i question_item =>
            {| label :=
                 "Question " +:+ str_int (S i) +:+ ": "
                 +:+ q_question question_item;
               placeholder := _create_placeholder_text (q_question question_item);
               lines := 2 |})
      questions
  /\ length (_create_response_components questions) = length questions.
Proof.
  assert (Hform :
    _create_response_components questions
    = imap (fun i question_item =>
              {| label :=
                   "Question " +:+ str_int (S i) +:+ ": "
                   +:+ q_question question_item;
                 placeholder := _create_placeholder_text (q_question question_item);
                 lines := 2 |})
        questions).
  { unfold _create_response_components.
    rewrite response_components_from. cbn [app]. reflexivity. }
  split; [exact Hform|]. rewrite Hform. apply length_imap.
Qed.


Lemma length_append (s1 s2 : string) :
  String.length (s1 +:+ s2) = (String.length s1 + String.length s2)%nat.
Proof.
  induction s1 as [|c s1 IH]; [reflexivity|].
  change (S (String.length (s1 +:+ s2))
          = S (String.length s1 + String.length s2)).
  by rewrite IH.
Qed.

Lemma substring_short (n : nat) (s : string) :
  (String.length s <= n)%nat -> String.substring 0 n s = s.
Proof.
  revert n. induction s as [|c s IH]; intros n Hlen.
  - by destruct n.
  - destruct n as [|n]; [cbn in Hlen; lia|].
    cbn [String.substring]. rewrite IH; [reflexivity|]. cbn in Hlen. lia.
Qed.

Lemma length_substring (n : nat) (s : string) :
  (String.length (String.substring 0 n s) <= n)%nat.
Proof.
  revert n. induction s as [|c s IH]; intros n.
  - destruct n; cbn; lia.
  - destruct n as [|n]; [cbn; lia|].
    cbn [String.substring String.length]. specialize (IH n). lia.
Qed.

(** X18. The placeholder of an answer box is "Your answer to: " and the
    question itself when the question has at most 30 characters;
    whatever the question, the placeholder has at most 49 characters. *)
Theorem placeholder_text_bounds (question : string) :
  ((String.length question <= 30)%nat ->
   _create_placeholder_text question = "Your answer to: " +:+ question)
  /\ (String.length (_create_placeholder_text question) <= 49)%nat.
Proof.
  unfold _create_placeholder_text. split.
  - intros Hlen. rewrite substring_short by exact Hlen.
    assert (Hshort : (30 <? String.length question)%nat = false)
      by (apply Nat.ltb_ge; exact Hlen).
    rewrite Hshort.
    f_equal. clear. induction question as [|c question IH]; [reflexivity|].
    change (String c (question +:+ "") = String c question). by rewrite IH.
  - rewrite !length_append.
    pose proof (length_substring 30 question) as Hsub.
    destruct (30 <? String.length question)%nat; cbn [String.length]; lia.
Qed.

Ltac session_step :=
  rewrite bind_step;
  cbn [get_session set_session outcome yielded world session stdin calls
       current_questions current_query response_components app].

(** What [generate_questions] does when the question agent answers. *)
Lemma generate_questions_answered (query : string) (w : World)
  (result : Questions) :
  respond rt product_manager_agent ("Query: " +:+ query) = inr result ->
  generate_questions rt query w
  = mkStep []
      (inr (_format_questions_for_display (q_searches result), true,
            _create_response_components (q_searches result)))
      (mkWorld
         (mkSession (q_searches result) query
            (_create_response_components (q_searches result)))
         (stdin w)
         (calls w ++ [(product_manager_agent, "Query: " +:+ query)])).
Proof.
  intros Hask. unfold generate_questions.
  do 2 session_step. unfold try_except. cbv zeta.
  rewrite bind_step.
  rewrite (run_async_returned rt
             (Runner_run rt product_manager_agent ("Query: " +:+ query))
             _ (mkWorld (mkSession (current_questions (session w)) query
                           (response_components (session w)))
                  (stdin w)
                  (calls w ++ [(product_manager_agent, "Query: " +:+ query)]))
             [] result)
    by (unfold Runner_run; cbn [session stdin calls]; by rewrite Hask).
  cbn [outcome yielded world app].
  repeat session_step.
  reflexivity.
Qed.

(** X19. [generate_questions] when the question agent answers: the
    session holds the new query, the questions of the agent and one
    answer box per question; the text of the questions and the boxes
    are returned, to be shown; and the agent has been called once. *)
Theorem generate_questions_fills_session (query : string) (w : World)
  (result : Questions) :
  respond rt product_manager_agent ("Query: " +:+ query) = inr result ->
  generate_questions rt query w
  = mkStep []
      (inr (_format_questions_for_display (q_searches result), true,
            _create_response_components (q_searches result)))
      (mkWorld
         (mkSession (q_searches result) query
            (_create_response_components (q_searches result)))
         (stdin w)
         (calls w ++ [(product_manager_agent, "Query: " +:+ query)])).
Proof. apply generate_questions_answered. Qed.

(** X20. [generate_questions] when the question agent raises: it
    returns the text "Error generating questions: " with the message of
    the exception, hides the questions and returns no box; the session
    already holds the new query, but keeps the questions and the boxes
    of the query before. *)
Theorem generate_questions_keeps_old_questions (query : string) (w : World)
  (e : exn) :
  respond rt product_manager_agent ("Query: " +:+ query) = inl e ->
  generate_questions rt query w
  = mkStep []
      (inr ("Error generating questions: " +:+ reported_message rt e, false, []))
      (mkWorld
         (mkSession (current_questions (session w)) query
            (response_components (session w)))
         (stdin w)
         (calls w ++ [(product_manager_agent, "Query: " +:+ query)])).
Proof.
  intros Hask. unfold generate_questions.
  do 2 session_step. unfold try_except. cbv zeta.
  rewrite bind_step.
  destruct (run_async_raised rt
              (Runner_run rt product_manager_agent ("Query: " +:+ query))
              (mkWorld (mkSession (current_questions (session w)) query
                          (response_components (session w)))
                 (stdin w) (calls w))
              (mkWorld (mkSession (current_questions (session w)) query
                          (response_components (session w)))
                 (stdin w)
                 (calls w ++ [(product_manager_agent, "Query: " +:+ query)]))
              e) as (e' & Hrun & Hmsg).
  { unfold Runner_run; cbn [session stdin calls]. by rewrite Hask. }
  rewrite Hrun. cbn [outcome yielded world app].
  rewrite Hmsg. reflexivity.
Qed.


Lemma filtered_inputs_step (all_responses : list (option string)) (w : World) :
  run_research_with_filtered_inputs rt all_responses w
  = run_research rt
      (take (length (current_questions (session w))) all_responses) w.
Proof.
  assert (Hrelevant :
    match current_questions (session w) with
    | [] => []
    | _ => take (length (current_questions (session w))) all_responses
    end
    = take (length (current_questions (session w))) all_responses)
    by (destruct (current_questions (session w)); reflexivity).
  unfold run_research_with_filtered_inputs. rewrite bind_step.
  cbn [get_session outcome yielded world app]. rewrite Hrelevant.
  destruct (run_research rt _ w); reflexivity.
Qed.

Lemma valid_responses_length (responses : list (option string)) :
  (length (valid_responses responses) <= length responses)%nat.
Proof.
  unfold valid_responses.
  induction responses as [|resp responses IH]; [reflexivity|].
  cbn. destruct (keep_response resp); cbn; lia.
Qed.

Lemma valid_responses_all (responses : list (option string)) :
  length (valid_responses responses) = length responses
  <-> Forall (fun resp => is_Some (keep_response resp)) responses.
Proof.
  unfold valid_responses.
  induction responses as [|resp responses IH]; [by split; [constructor|]|].
  pose proof (valid_responses_length responses) as Hle.
  unfold valid_responses in Hle.
  cbn. destruct (keep_response resp) as [kept|] eqn:Hkeep; cbn.
  - split.
    + intros Hlen. constructor; [by rewrite Hkeep|]. apply IH. lia.
    + intros Hall. inversion Hall; subst. f_equal. by apply IH.
  - split; [lia|]. intros Hall. inversion Hall as [|? ? Hsome]; subst.
    rewrite Hkeep in Hsome. by destruct Hsome.
Qed.

(** X21. Through the interface, a run starts exactly when each of the
    first N boxes, N the number of questions, holds an answer that is
    not [None] and not blank; what the boxes after them hold is
    ignored. Otherwise the validation message is returned and nothing
    else happens. *)
Theorem filtered_inputs_acceptance (all_responses : list (option string))
  (w : World) :
  ((length (current_questions (session w)) <= length all_responses)%nat ->
   Forall (fun resp => is_Some (keep_response resp))
     (take (length (current_questions (session w))) all_responses) ->
   run_research_with_filtered_inputs rt all_responses w
   = _execute_research rt
       (format_from 1
          (zip (current_questions (session w))
             (valid_responses
                (take (length (current_questions (session w))) all_responses)))
          "")
       w)
  /\ (~ ((length (current_questions (session w)) <= length all_responses)%nat
         /\ Forall (fun resp => is_Some (keep_response resp))
              (take (length (current_questions (session w))) all_responses)) ->
      run_research_with_filtered_inputs rt all_responses w
      = mkStep []
          (inr ("Please provide answers for all "
                +:+ str_int (length (current_questions (session w)))
                +:+ " questions. You provided "
                +:+ str_int
                      (length
                         (valid_responses
                            (take (length (current_questions (session w)))
                               all_responses)))
                +:+ " answers."))
          w).
Proof.
  rewrite filtered_inputs_step. split.
  - intros Hboxes Hall. apply run_research_accepts.
    apply valid_responses_all in Hall. rewrite Hall.
    rewrite length_take. lia.
  - intros Hnot. apply run_research_rejects. intros Hcount. apply Hnot.
    pose proof (valid_responses_length
                  (take (length (current_questions (session w))) all_responses))
      as Hle.
    rewrite length_take in Hle.
    assert (Hboxes : (length (current_questions (session w))
                      <= length all_responses)%nat) by lia.
    split; [exact Hboxes|]. apply valid_responses_all.
    rewrite Hcount, length_take. lia.
Qed.

(** X22. With more questions than the interface has answer boxes, no
    run can start: whatever the [MAX_QUESTIONS] boxes hold, the
    validation message is returned and no agent is called. *)
Theorem more_questions_than_boxes (all_responses : list (option string))
  (w : World) :
  length all_responses = MAX_QUESTIONS ->
  (MAX_QUESTIONS < length (current_questions (session w)))%nat ->
  exists provided : nat,
    (provided <= MAX_QUESTIONS)%nat
    /\ run_research_with_filtered_inputs rt all_responses w
       = mkStep []
           (inr ("Please provide answers for all "
                 +:+ str_int (length (current_questions (session w)))
                 +:+ " questions. You provided " +:+ str_int provided
                 +:+ " answers."))
           w.
Proof.
  intros Hboxes Hmany.
  exists (length (valid_responses
                    (take (length (current_questions (session w))) all_responses))).
  pose proof (valid_responses_length
                (take (length (current_questions (session w))) all_responses))
    as Hle.
  rewrite length_take in Hle.
  split; [lia|].
  rewrite filtered_inputs_step. apply run_research_rejects. lia.
Qed.

(** X23. With no question in the session, the responses are not looked
    at: the run starts at once, with an empty transcript. *)
Theorem no_questions_runs_at_once (all_responses : list (option string))
  (w : World) :
  current_questions (session w) = [] ->
  run_research_with_filtered_inputs rt all_responses w
  = _execute_research rt "" w.
Proof.
  intros Hnone. rewrite filtered_inputs_step, Hnone. cbn [length take].
  rewrite run_research_accepts by (by rewrite Hnone).
  rewrite Hnone. reflexivity.
Qed.

(** The planner is the first agent that [_execute_research] calls. *)
Lemma execute_research_starts_with_planner (questions_and_responses : string)
  (w : World) :
  exists (text : string) (rest : list (Agent * string)),
    _execute_research rt questions_and_responses w
    = mkStep [] (inr text)
        (logged w
           ((planner_agent,
             input_text (current_query (session w)) questions_and_responses)
            :: rest)).
Proof.
  destruct (respond rt planner_agent
              (input_text (current_query (session w)) questions_and_responses))
    as [e|plan] eqn:Hplan.
  { do 2 eexists. eapply execute_research_raised.
    rewrite run_with_responses_step.
    rewrite (pipeline_planner_raises rt _ _ _ w e Hplan). reflexivity. }
  destruct (respond rt writer_agent
              (report_input rt (current_query (session w)) (search_results rt plan)))
    as [e|report] eqn:Hwrite.
  { do 2 eexists. eapply execute_research_raised.
    rewrite run_with_responses_step.
    rewrite (pipeline_writer_raises rt _ _ _ w plan e Hplan Hwrite). reflexivity. }
  destruct (respond rt email_agent (markdown_report report)) as [e|u] eqn:Hmail.
  { do 2 eexists. eapply execute_research_raised.
    rewrite run_with_responses_step.
    rewrite (pipeline_email_raises rt _ _ _ w plan report e Hplan Hwrite Hmail).
    reflexivity. }
  do 2 eexists. eapply execute_research_returned.
  rewrite run_with_responses_step.
  rewrite (pipeline_completes rt _ _ _ w plan report u Hplan Hwrite Hmail).
  reflexivity.
Qed.

(** X25. Generating the questions and then running the research with
    one answer per question: the run is accepted, and the first thing it
    does is to call the planner with the query given to
    [generate_questions] and the transcript of the generated questions
    with the answers. *)
Theorem generate_then_run (query : string) (responses : list (option string))
  (w : World) (result : Questions) :
  respond rt product_manager_agent ("Query: " +:+ query) = inr result ->
  length (valid_responses responses) = length (q_searches result) ->
  exists (text : string) (rest : list (Agent * string)),
    run_research rt responses (world (generate_questions rt query w))
    = mkStep [] (inr text)
        (mkWorld
           (mkSession (q_searches result) query
              (_create_response_components (q_searches result)))
           (stdin w)
           (calls w
            ++ [ (product_manager_agent, "Query: " +:+ query);
                 (planner_agent,
                  input_text query
                    (format_from 1
                       (zip (q_searches result) (valid_responses responses))
                       "")) ]
            ++ rest)).
Proof.
  intros Hask Hcount.
  rewrite (generate_questions_answered query w result Hask). cbn [world].
  rewrite run_research_accepts by exact Hcount.
  cbn [session current_questions].
  destruct (execute_research_starts_with_planner
              (format_from 1
                 (zip (q_searches result) (valid_responses responses)) "")
              (mkWorld
                 (mkSession (q_searches result) query
                    (_create_response_components (q_searches result)))
                 (stdin w)
                 (calls w ++ [(product_manager_agent, "Query: " +:+ query)])))
    as (text & rest & Hrun).
  exists text, rest. rewrite Hrun. unfold logged.
  cbn [session stdin calls current_query]. rewrite <- app_assoc. reflexivity.
Qed.

End InterfaceEdges.

(* ===================================================================== *)
(** ** The two ways of collecting answers *)
(* ===================================================================== *)

Section Strategies.

Import Research.

Lemma lstrip_trimmed (s : string) : starts_with_space s = false -> lstrip s = s.
Proof. destruct s as [|c s]; [done|]. cbn. by intros ->. Qed.

Lemma rstrip_trimmed (s : string) : ends_with_space s = false -> rstrip s = s.
Proof.
  induction s as [|c s IH]; [done|]. intros Hend.
  cbn [rstrip]. destruct s as [|d s].
  - cbn in *. by rewrite Hend.
  - rewrite IH by exact Hend. reflexivity.
Qed.

Lemma strip_strip (s : string) : strip (strip s) = strip s.
Proof.
  pose proof (strip_trimmed s) as Htrim. unfold trimmed in Htrim.
  apply andb_prop in Htrim as [Hstart Hend].
  apply negb_true_iff in Hstart, Hend.
  unfold strip at 1. rewrite lstrip_trimmed by exact Hstart.
  by apply rstrip_trimmed.
Qed.

(** X24. The two ways of collecting answers agree: when every line typed
    is an answer (not blank), the transcript that the interactive path
    builds from the lines typed is the transcript that the path of the
    user interface builds from the same lines, trimmed, for the same
    questions. *)
Theorem strategies_agree (self : ResearchManager) (questions : list Question)
  (w w' : World) :
  length (stdin w) = length questions ->
  Forall (fun line => strip line <> "") (stdin w) ->
  current_questions (session w') = questions ->
  outcome (_interactive_question_collection self questions w)
  = outcome (_format_questions_and_responses
               ((fun line => Some (strip line)) <$> stdin w) w').
Proof.
  intros Hlen Hanswers Hquestions.
  unfold _interactive_question_collection.
  rewrite ask_from_step by lia. rewrite format_step. cbn [outcome].
  rewrite Hquestions, <- Hlen, firstn_all. do 3 f_equal.
  unfold valid_responses. clear Hlen.
  induction Hanswers as [|line rest Hline _ IH]; [reflexivity|].
  cbn. rewrite strip_strip.
  destruct (strip line) eqn:Hstrip; [done|]. cbn. by rewrite IH.
Qed.

End Strategies.

(* ===================================================================== *)
(** ** The further properties on the scripted runtimes *)
(* ===================================================================== *)

Section MoreExamples.

Import Accounts Research.

(** The script of test_calculate_portfolio_value: after a deposit of 500
    and the purchase of 5 AAPL the value is 1500, the cash paid for the
    shares being no longer in the balance. *)
Example value_after_deposit_and_purchase :
  calculate_portfolio_value
    (perform_all (new_account "user123" (1000 # 1))
       [OpDeposit (500 # 1); OpBuy "AAPL" 5])
  = 1500 # 1.
Proof. vm_compute. reflexivity. Qed.

Lemma slider_operations_keep_balance_witness :
  (0 <= balance (new_account "user123" (1000 # 1)))%Q
  /\ Forall in_slider_range
       [OpDeposit (500 # 1); OpWithdraw (200 # 1); OpBuy "AAPL" 5; OpSell "AAPL" 3]
  /\ (0 <= balance
             (perform_all (new_account "user123" (1000 # 1))
                [OpDeposit (500 # 1); OpWithdraw (200 # 1); OpBuy "AAPL" 5;
                 OpSell "AAPL" 3]))%Q.
Proof.
  assert (Hbal : (0 <= balance (new_account "user123" (1000 # 1)))%Q)
    by discriminate.
  assert (Hops :
    Forall in_slider_range
      [OpDeposit (500 # 1); OpWithdraw (200 # 1); OpBuy "AAPL" 5; OpSell "AAPL" 3]).
  { repeat constructor; cbn; try discriminate; lia. }
  split; [exact Hbal|]. split; [exact Hops|].
  exact (slider_operations_keep_balance _ _ Hbal Hops).
Defined.

Lemma slider_operations_keep_holdings_positive_witness :
  positive_holdings (new_account "user123" (1000 # 1))
  /\ Forall in_slider_range [OpBuy "AAPL" 5; OpSell "AAPL" 5; OpBuy "TSLA" 1]
  /\ positive_holdings
       (perform_all (new_account "user123" (1000 # 1))
          [OpBuy "AAPL" 5; OpSell "AAPL" 5; OpBuy "TSLA" 1]).
Proof.
  assert (Hpos : positive_holdings (new_account "user123" (1000 # 1)))
    by apply map_Forall_empty.
  assert (Hops :
    Forall in_slider_range [OpBuy "AAPL" 5; OpSell "AAPL" 5; OpBuy "TSLA" 1]).
  { repeat constructor; cbn; lia. }
  split; [exact Hpos|]. split; [exact Hops|].
  exact (slider_operations_keep_holdings_positive _ _ Hpos Hops).
Defined.

Lemma buy_then_sell_round_trip_witness :
  positive_holdings (new_account "user123" (1000 # 1))
  /\ buy_shares_call (new_account "user123" (1000 # 1)) "AAPL" 5
     = (Some true, snd (buy_shares (new_account "user123" (1000 # 1)) "AAPL" 5))
  /\ exists sold,
       sell_shares_call
         (snd (buy_shares (new_account "user123" (1000 # 1)) "AAPL" 5))
         "AAPL" 5
       = (Some true, sold)
       /\ holdings sold = holdings (new_account "user123" (1000 # 1)).
Proof.
  assert (Hpos : positive_holdings (new_account "user123" (1000 # 1)))
    by apply map_Forall_empty.
  assert (Hbuy :
    buy_shares_call (new_account "user123" (1000 # 1)) "AAPL" 5
    = (Some true, snd (buy_shares (new_account "user123" (1000 # 1)) "AAPL" 5)))
    by (vm_compute; reflexivity).
  split; [exact Hpos|]. split; [exact Hbuy|].
  destruct (buy_then_sell_round_trip (new_account "user123" (1000 # 1)) _
              "AAPL" 5 Hpos Hbuy) as (sold & Hsell & Hheld & _).
  exists sold. split; [exact Hsell | exact Hheld].
Defined.

Lemma run_interactive_sequence_witness :
  (length (q_searches demo_questions)
   <= length (stdin (mkWorld demo_session [" 500 "; "study"; "14 inch"] [])))%nat
  /\ yielded (run (demo_runtime None true true) new_ResearchManager
                "best budget laptops 2024"
                (mkWorld demo_session [" 500 "; "study"; "14 inch"] []))
     = [ "https://platform.openai.com/traces/trace?trace_id=trace_0123";
         "Searches planned, starting to search...";
         "Searches complete, writing report...";
         "Report written, sending email...";
         "Email sent, research complete";
         "# Best budget laptops 2024" ].
Proof.
  assert (Hlines :
    (length (q_searches demo_questions)
     <= length (stdin (mkWorld demo_session [" 500 "; "study"; "14 inch"] [])))%nat)
    by (cbn; lia).
  split; [exact Hlines|].
  rewrite (run_interactive_sequence (demo_runtime None true true)
             new_ResearchManager "best budget laptops 2024"
             (mkWorld demo_session [" 500 "; "study"; "14 inch"] [])
             demo_questions demo_plan demo_report tt
             eq_refl Hlines eq_refl eq_refl eq_refl).
  reflexivity.
Defined.

Lemma run_stops_at_end_of_input_witness :
  (length (stdin (mkWorld demo_session ["500"] []))
   < length (q_searches demo_questions))%nat
  /\ outcome (run (demo_runtime None true true) new_ResearchManager
                "best budget laptops 2024" (mkWorld demo_session ["500"] []))
     = inl (mkExn EOFError "EOF when reading a line").
Proof.
  assert (Hlines :
    (length (stdin (mkWorld demo_session ["500"] []))
     < length (q_searches demo_questions))%nat) by (cbn; lia).
  split; [exact Hlines|].
  rewrite (run_stops_at_end_of_input (demo_runtime None true true)
             new_ResearchManager "best budget laptops 2024"
             (mkWorld demo_session ["500"] []) demo_questions eq_refl Hlines).
  reflexivity.
Defined.

Lemma run_stops_without_questions_witness :
  respond (failing_runtime product_manager_agent
             (mkExn OtherException "rate limit") NoCurrentLoop)
    product_manager_agent ("Query: " +:+ "best budget laptops 2024")
    = inl (mkExn OtherException "rate limit")
  /\ outcome (run (failing_runtime product_manager_agent
                     (mkExn OtherException "rate limit") NoCurrentLoop)
                new_ResearchManager "best budget laptops 2024"
                (mkWorld demo_session ["500"] []))
     = inl (mkExn OtherException "rate limit").
Proof.
  split; [reflexivity|].
  rewrite (run_stops_without_questions
             (failing_runtime product_manager_agent
                (mkExn OtherException "rate limit") NoCurrentLoop)
             new_ResearchManager "best budget laptops 2024"
             (mkWorld demo_session ["500"] [])
             (mkExn OtherException "rate limit") eq_refl).
  reflexivity.
Defined.

Lemma planner_failure_stops_run_witness :
  respond (failing_runtime planner_agent (mkExn OtherException "rate limit")
             NoCurrentLoop)
    planner_agent
    (input_text (current_query (session demo_world)) demo_transcript)
    = inl (mkExn OtherException "rate limit")
  /\ outcome (_execute_research
                (failing_runtime planner_agent
                   (mkExn OtherException "rate limit") NoCurrentLoop)
                demo_transcript demo_world)
     = inr "Error running research: rate limit".
Proof.
  split; [reflexivity|].
  destruct (planner_failure_stops_run
              (failing_runtime planner_agent
                 (mkExn OtherException "rate limit") NoCurrentLoop)
              new_ResearchManager demo_transcript demo_world
              (mkExn OtherException "rate limit") eq_refl) as (_ & Hrun).
  rewrite Hrun. reflexivity.
Defined.

Lemma run_without_search_results_witness :
  Forall (fun item =>
            search_succeeds
              (failing_runtime search_agent
                 (mkExn OtherException "search timed out") NoCurrentLoop)
              item = false)
    (searches demo_plan)
  /\ yielded (run_with_responses
                (failing_runtime search_agent
                   (mkExn OtherException "search timed out") NoCurrentLoop)
                new_ResearchManager "best budget laptops 2024"
                demo_transcript demo_world)
     = [ "https://platform.openai.com/traces/trace?trace_id=trace_0123";
         "Starting research with your responses...";
         "Searches planned, starting to search...";
         "Searches complete, writing report...";
         "Report written, sending email...";
         "Email sent, research complete";
         "# Best budget laptops 2024" ].
Proof.
  assert (Hfail :
    Forall (fun item =>
              search_succeeds
                (failing_runtime search_agent
                   (mkExn OtherException "search timed out") NoCurrentLoop)
                item = false)
      (searches demo_plan)) by (repeat constructor).
  split; [exact Hfail|].
  destruct (run_without_search_results
              (failing_runtime search_agent
                 (mkExn OtherException "search timed out") NoCurrentLoop)
              new_ResearchManager "best budget laptops 2024" demo_transcript
              demo_world demo_plan demo_report tt Hfail eq_refl eq_refl eq_refl)
    as (_ & Hrun).
  rewrite Hrun. reflexivity.
Defined.

Lemma results_in_completion_order_witness :
  completion_order
    (failing_runtime email_agent (mkExn OtherException "SMTP connection refused")
       NoCurrentLoop)
    (length (searches demo_plan))
    = seq 0 (length (searches demo_plan))
  /\ outcome (_perform_searches
                (failing_runtime email_agent
                   (mkExn OtherException "SMTP connection refused") NoCurrentLoop)
                new_ResearchManager demo_plan demo_world)
     = inr (omap (search_result
                    (failing_runtime email_agent
                       (mkExn OtherException "SMTP connection refused")
                       NoCurrentLoop))
              (searches demo_plan)).
Proof.
  split; [reflexivity|].
  exact (proj2 (results_in_completion_order
                  (failing_runtime email_agent
                     (mkExn OtherException "SMTP connection refused")
                     NoCurrentLoop)
                  new_ResearchManager demo_plan demo_world) eq_refl).
Defined.

Lemma execute_research_text_witness :
  respond (demo_runtime None true true) email_agent (markdown_report demo_report)
    = inr tt
  /\ exists text,
       outcome (_execute_research (demo_runtime None true true) demo_transcript
                  demo_world)
       = inr text.
Proof.
  split; [reflexivity|]. eexists.
  exact (execute_research_text (demo_runtime None true true) demo_transcript
           demo_world demo_plan demo_report tt eq_refl eq_refl eq_refl).
Defined.

Lemma placeholder_text_bounds_witness :
  (String.length "What is your budget?" <= 30)%nat
  /\ _create_placeholder_text "What is your budget?"
     = "Your answer to: What is your budget?".
Proof.
  assert (Hlen : (String.length "What is your budget?" <= 30)%nat)
    by (cbn; lia).
  split; [exact Hlen|].
  exact (proj1 (placeholder_text_bounds "What is your budget?") Hlen).
Defined.

Lemma generate_questions_fills_session_witness :
  respond (demo_runtime None true true) product_manager_agent
    ("Query: " +:+ "best budget laptops 2024")
    = inr demo_questions
  /\ current_questions
       (session (world (generate_questions (demo_runtime None true true)
                          "best budget laptops 2024"
                          (mkWorld (mkSession [] "" []) [] []))))
     = q_searches demo_questions.
Proof.
  split; [reflexivity|].
  rewrite (generate_questions_fills_session (demo_runtime None true true)
             "best budget laptops 2024" (mkWorld (mkSession [] "" []) [] [])
             demo_questions eq_refl).
  reflexivity.
Defined.

Lemma generate_questions_keeps_old_questions_witness :
  respond (failing_runtime product_manager_agent
             (mkExn OtherException "rate limit") NoCurrentLoop)
    product_manager_agent ("Query: " +:+ "cheap phones")
    = inl (mkExn OtherException "rate limit")
  /\ session (world (generate_questions
                       (failing_runtime product_manager_agent
                          (mkExn OtherException "rate limit") NoCurrentLoop)
                       "cheap phones" demo_world))
     = mkSession (q_searches demo_questions) "cheap phones" [].
Proof.
  split; [reflexivity|].
  rewrite (generate_questions_keeps_old_questions
             (failing_runtime product_manager_agent
                (mkExn OtherException "rate limit") NoCurrentLoop)
             "cheap phones" demo_world (mkExn OtherException "rate limit")
             eq_refl).
  reflexivity.
Defined.

Lemma filtered_inputs_acceptance_witness :
  ~ ((length (current_questions (session demo_world))
      <= length [Some "500"; Some "   "; Some "14 inch"; None])%nat
     /\ Forall (fun resp => is_Some (keep_response resp))
          (take (length (current_questions (session demo_world)))
             [Some "500"; Some "   "; Some "14 inch"; None]))
  /\ outcome (run_research_with_filtered_inputs (demo_runtime None true true)
                [Some "500"; Some "   "; Some "14 inch"; None] demo_world)
     = inr "Please provide answers for all 3 questions. You provided 2 answers.".
Proof.
  assert (Hnot :
    ~ ((length (current_questions (session demo_world))
        <= length [Some "500"; Some "   "; Some "14 inch"; None])%nat
       /\ Forall (fun resp => is_Some (keep_response resp))
            (take (length (current_questions (session demo_world)))
               [Some "500"; Some "   "; Some "14 inch"; None]))).
  { intros [_ Hall]. cbn in Hall.
    inversion Hall as [|? ? _ Hrest]; subst.
    inversion Hrest as [|? ? Hblank _]; subst.
    destruct Hblank as [kept Hkept]. discriminate Hkept. }
  split; [exact Hnot|].
  rewrite (proj2 (filtered_inputs_acceptance (demo_runtime None true true)
                    [Some "500"; Some "   "; Some "14 inch"; None] demo_world)
             Hnot).
  reflexivity.
Defined.

Lemma more_questions_than_boxes_witness :
  length (replicate 10 (Some "yes")) = MAX_QUESTIONS
  /\ (MAX_QUESTIONS
      < length (current_questions
                  (session (mkWorld
                              (mkSession
                                 (replicate 11 (mkQuestion "why" "what?"))
                                 "topic" [])
                              [] []))))%nat
  /\ exists provided : nat,
       (provided <= MAX_QUESTIONS)%nat
       /\ outcome (run_research_with_filtered_inputs
                     (demo_runtime None true true)
                     (replicate 10 (Some "yes"))
                     (mkWorld
                        (mkSession (replicate 11 (mkQuestion "why" "what?"))
                           "topic" [])
                        [] []))
          = inr ("Please provide answers for all 11 questions. You provided "
                 +:+ str_int provided +:+ " answers.").
Proof.
  assert (Hboxes : length (replicate 10 (Some "yes")) = MAX_QUESTIONS)
    by reflexivity.
  assert (Hmany :
    (MAX_QUESTIONS
     < length (current_questions
                 (session (mkWorld
                             (mkSession (replicate 11 (mkQuestion "why" "what?"))
                                "topic" [])
                             [] []))))%nat) by (cbn; unfold MAX_QUESTIONS; lia).
  split; [exact Hboxes|]. split; [exact Hmany|].
  destruct (more_questions_than_boxes (demo_runtime None true true)
              (replicate 10 (Some "yes"))
              (mkWorld
                 (mkSession (replicate 11 (mkQuestion "why" "what?")) "topic" [])
                 [] [])
              Hboxes Hmany) as (provided & Hle & Hrun).
  exists provided. split; [exact Hle|]. rewrite Hrun. reflexivity.
Defined.

Lemma no_questions_runs_at_once_witness :
  current_questions (session (mkWorld (mkSession [] "" []) [] [])) = []
  /\ run_research_with_filtered_inputs (demo_runtime None true true)
       (replicate 10 None) (mkWorld (mkSession [] "" []) [] [])
     = _execute_research (demo_runtime None true true) ""
         (mkWorld (mkSession [] "" []) [] []).
Proof.
  split; [reflexivity|].
  exact (no_questions_runs_at_once (demo_runtime None true true)
           (replicate 10 None) (mkWorld (mkSession [] "" []) [] []) eq_refl).
Defined.

Lemma strategies_agree_witness :
  length (stdin (mkWorld demo_session [" 500 "; "study"; "14 inch"] []))
    = length (q_searches demo_questions)
  /\ outcome (_interactive_question_collection new_ResearchManager
                (q_searches demo_questions)
                (mkWorld demo_session [" 500 "; "study"; "14 inch"] []))
     = outcome (_format_questions_and_responses
                  [Some "500"; Some "study"; Some "14 inch"] demo_world).
Proof.
  split; [reflexivity|].
  assert (Hanswers :
    Forall (fun line => strip line <> "")
      (stdin (mkWorld demo_session [" 500 "; "study"; "14 inch"] [])))
    by (repeat constructor; discriminate).
  exact (strategies_agree new_ResearchManager (q_searches demo_questions)
           (mkWorld demo_session [" 500 "; "study"; "14 inch"] []) demo_world
           eq_refl Hanswers eq_refl).
Defined.

Lemma generate_then_run_witness :
  length (valid_responses [Some "500"; Some "study"; Some "14 inch"])
    = length (q_searches demo_questions)
  /\ exists (text : string) (rest : list (Agent * string)),
       calls (world (run_research (demo_runtime None true true)
                       [Some "500"; Some "study"; Some "14 inch"]
                       (world (generate_questions (demo_runtime None true true)
                                 "best budget laptops 2024"
                                 (mkWorld (mkSession [] "" []) [] [])))))
       = [ (product_manager_agent, "Query: " +:+ "best budget laptops 2024");
           (planner_agent,
            input_text "best budget laptops 2024"
              ("1. What is your budget? - Response: 500" +:+ LF
               +:+ "2. What will you use it for? - Response: study" +:+ LF
               +:+ "3. Which screen size do you prefer? - Response: 14 inch"
               +:+ LF)) ]
         ++ rest
       /\ outcome (run_research (demo_runtime None true true)
                     [Some "500"; Some "study"; Some "14 inch"]
                     (world (generate_questions (demo_runtime None true true)
                               "best budget laptops 2024"
                               (mkWorld (mkSession [] "" []) [] []))))
          = inr text.
Proof.
  split; [reflexivity|].
  destruct (generate_then_run (demo_runtime None true true)
              "best budget laptops 2024"
              [Some "500"; Some "study"; Some "14 inch"]
              (mkWorld (mkSession [] "" []) [] []) demo_questions
              eq_refl eq_refl) as (text & rest & Hrun).
  exists text, rest. rewrite Hrun. split; reflexivity.
Defined.

Lemma negative_arguments_are_accepted_witness :
  (0 <= balance (new_account "user123" (1000 # 1)))%Q
  /\ (-100 # 1 < 0)%Q /\ -2 < 0 /\ fits_float (-2) = true
  /\ (exists self',
        withdraw (new_account "user123" (1000 # 1)) (-100 # 1) = (true, self')
        /\ (balance (new_account "user123" (1000 # 1)) <= balance self')%Q)
  /\ (exists self',
        buy_shares_call (new_account "user123" (1000 # 1)) "AAPL" (-2)
        = (Some true, self')
        /\ holdings self' !! "AAPL" = Some (-2)).
Proof.
  assert (Hbal : (0 <= balance (new_account "user123" (1000 # 1)))%Q)
    by discriminate.
  assert (Hneg : (-100 # 1 < 0)%Q) by reflexivity.
  assert (Hquantity : -2 < 0) by lia.
  assert (Hfits : fits_float (-2) = true) by (vm_compute; reflexivity).
  repeat (split; [assumption|]).
  destruct (negative_arguments_are_accepted
              (new_account "user123" (1000 # 1)) (-100 # 1) "AAPL" (-2)
              Hbal) as (Hwithdraw & Hbuy).
  split; [exact (Hwithdraw Hneg)|].
  destruct (Hbuy Hquantity Hfits) as (self' & Hrun & _ & Hheld & _).
  exists self'. split; [exact Hrun | exact Hheld].
Defined.

End MoreExamples.
